(** * Altcoin AI Price Predictor: a shallow embedding of [app.py]

    The Streamlit script is a linear pipeline: build the symbol map, fetch
    an hourly price history (Yahoo Finance first, CoinGecko as fallback),
    fit Prophet, slice the 24 future rows at the fixed horizons, render one
    table per horizon and offer a combined spreadsheet.

    The embedding keeps that shape.  Every call that leaves the process
    (HTTP requests, [yf.download], the Prophet fit, the wall clock) is read
    from a [World] record; every call into Streamlit and every outbound
    request is recorded as an [event] of the run's trace; Python exceptions
    are an explicit outcome.  Floating-point arithmetic is kept behind the
    [PyFloat] interface: the theorems hold for every implementation of it,
    and the binary64 instance, the script's own arithmetic, runs the
    examples. *)

From Stdlib Require Import ZArith QArith List String Ascii Sorted Lia.
From Stdlib Require PrimFloat SpecFloat FloatOps.
From stdpp Require Import base option list gmap strings pretty.

Open Scope string_scope.
Open Scope list_scope.
Open Scope Z_scope.

(** ** Python built-ins used by the script *)

(** [range(start, stop, step)]: the arithmetic progression from [start],
    strictly below [stop] for a positive step and strictly above it for a
    negative one.  Python raises [ValueError] for a zero step; the model
    gives the empty list there. *)
Definition py_range (start stop step : Z) : list Z :=
  let len :=
    if 0 <? step then (stop - start + step - 1) / step
    else if step <? 0 then (start - stop - step - 1) / (- step)
    else 0 in
  map (λ k : nat, start + step * Z.of_nat k) (seq 0 (Z.to_nat len)).

(** Exceptions.  Everything the pipeline can raise derives from Python's
    [Exception] and carries its message, except Streamlit's
    [StopException] (raised by [st.stop()]), which derives from
    [BaseException] and is therefore invisible to [except Exception]. *)
Inductive exception :=
  | Exception (msg : string)
  | StopException.

(** Positional indexing, [s.iloc[i]]: a negative index counts from the end,
    an index outside [-len, len) raises [IndexError]. *)
Definition iloc {A} (l : list A) (i : Z) : exception + A :=
  let n := Z.of_nat (length l) in
  let j := if i <? 0 then n + i else i in
  if (0 <=? j) && (j <? n) then
    match l !! Z.to_nat j with
    | Some a => inr a
    | None => inl (Exception "single positional indexer is out-of-bounds")
    end
  else inl (Exception "single positional indexer is out-of-bounds").

(** ASCII upper-casing, the restriction of [str.upper] to ASCII text; used
    to instantiate the abstract [upper] of the script in examples. *)
Definition ascii_upper_char (c : ascii) : ascii :=
  let n := nat_of_ascii c in
  if (97 <=? n)%nat && (n <=? 122)%nat then ascii_of_nat (n - 32) else c.

Fixpoint ascii_upper (s : string) : string :=
  match s with
  | EmptyString => EmptyString
  | String c s' => String (ascii_upper_char c) (ascii_upper s')
  end.

(** ** Timestamps *)

(** A naive pandas [Timestamp]: nanoseconds since 1970-01-01 00:00 on the
    wall clock. *)
Definition Timestamp := Z.

Definition ns_per_ms : Z := 1000000.
Definition ns_per_minute : Z := 60 * 1000000000.
Definition ns_per_hour : Z := 60 * ns_per_minute.
Definition ns_per_day : Z := 24 * ns_per_hour.

(** A timezone-aware timestamp as Yahoo Finance returns it. *)
Record AwareTimestamp := {
  utc_ns : Z;          (* the instant, in UTC *)
  utcoffset_ns : Z     (* offset of the attached zone at that instant *)
}.

(** [Series.dt.tz_localize(None)]: drop the zone, keep the local wall time. *)
Definition tz_localize_none (t : AwareTimestamp) : Timestamp :=
  utc_ns t + utcoffset_ns t.

(** The largest timestamp, [Timestamp.max], in nanoseconds; the smallest is
    its opposite. *)
Definition int64_max : Z := 2 ^ 63 - 1.

(** A millisecond stamp as pandas holds it in the int64 column built from
    the chart's [prices] array: any int64 value but the least one, which
    pandas reads as "not a time". *)
Record Stamp := {
  stamp_ms : Z;
  stamp_fits : Is_true ((- int64_max <=? stamp_ms) && (stamp_ms <=? int64_max))
}.

(** [pd.to_datetime(x, unit='ms')] on one stamp: its nanoseconds, or
    [OutOfBoundsDatetime] when they do not fit a timestamp.  The text of
    that exception names the date and is left to the caller. *)
Definition to_datetime_ms (overflow_text : Z → string) (ms : Stamp)
    : exception + Timestamp :=
  let ns := stamp_ms ms * ns_per_ms in
  if (- int64_max <=? ns) && (ns <=? int64_max) then inr ns
  else inl (Exception (overflow_text (stamp_ms ms))).

(** Proleptic Gregorian date of a day count since 1970-01-01. *)
Definition civil_from_days (days : Z) : Z * Z * Z :=
  let z := days + 719468 in
  let era := z / 146097 in
  let doe := z - era * 146097 in
  let yoe := (doe - doe / 1460 + doe / 36524 - doe / 146096) / 365 in
  let doy := doe - (365 * yoe + yoe / 4 - yoe / 100) in
  let mp := (5 * doy + 2) / 153 in
  let d := doy - (153 * mp + 2) / 5 + 1 in
  let m := if mp <? 10 then mp + 3 else mp - 9 in
  let y := yoe + era * 400 + (if m <=? 2 then 1 else 0) in
  (y, m, d).

Definition pad2 (n : Z) : string :=
  if n <? 10 then "0" +:+ pretty n else pretty n.

Definition pad4 (n : Z) : string :=
  if n <? 10 then "000" +:+ pretty n
  else if n <? 100 then "00" +:+ pretty n
  else if n <? 1000 then "0" +:+ pretty n
  else pretty n.

(** [Timestamp.strftime('%Y-%m-%d %H:%M')] *)
Definition strftime_ymd_hm (t : Timestamp) : string :=
  let '(y, m, d) := civil_from_days (t / ns_per_day) in
  let tod := t mod ns_per_day in
  pad4 y +:+ "-" +:+ pad2 m +:+ "-" +:+ pad2 d +:+ " " +:+
  pad2 (tod / ns_per_hour) +:+ ":" +:+ pad2 ((tod mod ns_per_hour) / ns_per_minute).

(** ** Floating-point interface *)

(** The arithmetic the script performs on prices.  [of_int] is the implicit
    conversion of a Python [int] operand, [round x n] is [round(x, n)],
    [gt] is [>], and [fstr] is the text an f-string inserts. *)
Class PyFloat (R : Type) := {
  fsub : R → R → R;
  fmul : R → R → R;
  fdiv : R → R → R;
  of_int : Z → R;
  round : R → Z → R;
  gt : R → R → bool;
  fstr : R → string
}.

(** The script's arithmetic: IEEE binary64.  The prices the script handles
    are [numpy.float64] values ([df['y'].iloc[-1]] and the items of a frame
    row), so [-], [*] and [/] are the IEEE operations and never raise (a
    zero divisor gives an infinity or NaN), [round] is NumPy's, a comparison
    with NaN is false, and an f-string inserts Python's shortest decimal. *)
Module Binary64.

Definition float : Type := PrimFloat.float.

(** The nearest integer to a rational, ties to the even one. *)
Definition round_half_even (q : Q) : Z :=
  let n := Qnum q in
  let d := Z.pos (Qden q) in
  let fl := n / d in
  let twice_rem := 2 * (n - fl * d) in
  if twice_rem <? d then fl
  else if d <? twice_rem then fl + 1
  else if Z.even fl then fl else fl + 1.

Definition qfloor (q : Q) : Z := Qnum q / Z.pos (Qden q).

(** The double nearest to an integer, ties to even: the conversion of an
    [int] operand (Python raises [OverflowError] past the largest double,
    where this gives an infinity; the script converts only 100 and 0). *)
Definition of_Z (z : Z) : float :=
  FloatOps.SF2Prim
    (SpecFloat.binary_normalize FloatOps.prec FloatOps.emax z 0 false).

(** The double a decimal literal [digits * 10^-places] denotes, for
    [|digits| < 2^53] and [0 <= places <= 22]. *)
Definition decimal (digits places : Z) : float :=
  PrimFloat.div (of_Z digits) (of_Z (10 ^ places)).

(** The exact value [m * 2^e] of a finite double's magnitude. *)
Definition magnitude (m : positive) (e : Z) : Q :=
  (inject_Z (Z.pos m) * (2 # 1) ^ e)%Q.

(** [np.rint]: the nearest integer, ties to even; zeros, infinities and NaN
    are returned as they are, and a value that rounds to zero keeps its
    sign. *)
Definition rint (x : float) : float :=
  match FloatOps.Prim2SF x with
  | SpecFloat.S754_finite s m e =>
      if 0 <=? e then x
      else
        let n := round_half_even (magnitude m e) in
        if n =? 0 then (if s then PrimFloat.neg_zero else PrimFloat.zero)
        else of_Z (if s then - n else n)
  | _ => x
  end.

(** [round(x, ndigits)] on a [numpy.float64]: multiply by the power of ten,
    [rint], divide by it (and the other way round for negative [ndigits]);
    powers of ten up to [10^22] are exact doubles. *)
Definition np_round (x : float) (ndigits : Z) : float :=
  let f := of_Z (10 ^ Z.abs ndigits) in
  if 0 <=? ndigits
  then PrimFloat.div (rint (PrimFloat.mul x f)) f
  else PrimFloat.mul (rint (PrimFloat.div x f)) f.

(** *** [str] of a double: the shortest decimal that reads back as it *)

Definition value_of (x : float) : Q :=
  match FloatOps.Prim2SF x with
  | SpecFloat.S754_finite _ m e => magnitude m e
  | _ => 0%Q
  end.

Definition pow10 (e : Z) : Q := ((10 # 1) ^ e)%Q.

(** The largest [e] from [start] on with [10^e <= q]. *)
Fixpoint decimal_exponent (fuel : nat) (e : Z) (q : Q) : Z :=
  match fuel with
  | O => e
  | S fuel' =>
      if Qle_bool (pow10 (e + 1)) q then decimal_exponent fuel' (e + 1) q else e
  end.

(** A decimal exponent at most three below that of [q], from the bit
    lengths of its numerator and denominator. *)
Definition exponent_below (q : Q) : Z :=
  (Z.log2 (Qnum q) - Z.log2 (Z.pos (Qden q)) - 1) * 30103 / 100000 - 1.

(** Whether the decimal [d] reads back as the double whose rounding
    interval is [lo, hi]: inside it, the ends included when the double's
    mantissa is even. *)
Definition reads_back (even : bool) (lo hi d : Q) : bool :=
  if even then Qle_bool lo d && Qle_bool d hi
  else negb (Qle_bool d lo) && negb (Qle_bool hi d).

Fixpoint strip_zeros (fuel : nat) (k : Z) (removed : Z) : Z * Z :=
  match fuel with
  | O => (k, removed)
  | S fuel' =>
      if (k mod 10 =? 0) && negb (k =? 0)
      then strip_zeros fuel' (k / 10) (removed + 1)
      else (k, removed)
  end.

(** The digits (without trailing zeros) and the position of the decimal
    point of the shortest decimal that reads back as [x], trying [p],
    [p + 1], ... significant digits; 17 always suffice. *)
Fixpoint shortest (tries : nat) (p : Z) (exp : Z) (even : bool) (lo hi x : Q)
    : Z * Z :=
  let scale := pow10 (exp - p + 1) in
  let k0 := qfloor (x / scale) in
  let d0 := (inject_Z k0 * scale)%Q in
  let d1 := (inject_Z (k0 + 1) * scale)%Q in
  let ok0 := reads_back even lo hi d0 in
  let ok1 := reads_back even lo hi d1 in
  let nearer0 := Qle_bool (x - d0) (d1 - x) in
  let pick k :=
    let '(k', removed) := strip_zeros 20 k 0 in
    (k', Z.of_nat (String.length (pretty k')) + removed + (exp - p + 1)) in
  match tries with
  | O => pick k0
  | S tries' =>
      if ok0 && (nearer0 || negb ok1) then pick k0
      else if ok1 then pick (k0 + 1)
      else shortest tries' (p + 1) exp even lo hi x
  end.

Definition zeros (n : Z) : string :=
  String.concat "" (repeat "0" (Z.to_nat n)).

(** Python's layout of the digits: plain, with a decimal point, when the
    point position is in (-4, 16], otherwise with an exponent of at least
    two digits. *)
Definition layout (digits : Z) (decpt : Z) : string :=
  let ds := pretty digits in
  let len := Z.of_nat (String.length ds) in
  if (decpt <=? -4) || (16 <? decpt) then
    let e := decpt - 1 in
    String.substring 0 1 ds +:+
    (if 1 <? len then "." +:+ String.substring 1 (Z.to_nat (len - 1)) ds else "") +:+
    "e" +:+ (if e <? 0 then "-" else "+") +:+ pad2 (Z.abs e)
  else if decpt <=? 0 then "0." +:+ zeros (- decpt) +:+ ds
  else if len <=? decpt then ds +:+ zeros (decpt - len) +:+ ".0"
  else String.substring 0 (Z.to_nat decpt) ds +:+ "." +:+
       String.substring (Z.to_nat decpt) (Z.to_nat (len - decpt)) ds.

Definition float_str (x : float) : string :=
  match FloatOps.Prim2SF x with
  | SpecFloat.S754_nan => "nan"
  | SpecFloat.S754_infinity s => if s then "-inf" else "inf"
  | SpecFloat.S754_zero s => if s then "-0.0" else "0.0"
  | SpecFloat.S754_finite s m e =>
      let a := PrimFloat.abs x in
      let v := magnitude m e in
      let above :=
        match FloatOps.Prim2SF (PrimFloat.next_up a) with
        | SpecFloat.S754_finite _ m' e' => magnitude m' e'
        | _ => (v + (2 # 1) ^ e)%Q
        end in
      let below := value_of (PrimFloat.next_down a) in
      let lo := ((below + v) / (2 # 1))%Q in
      let hi := ((v + above) / (2 # 1))%Q in
      let exp := decimal_exponent 5 (exponent_below v) v in
      let '(digits, decpt) := shortest 17 1 exp (Z.even (Z.pos m)) lo hi v in
      (if s then "-" else "") +:+ layout digits decpt
  end.

#[export] Instance Float64_PyFloat : PyFloat float := {|
  fsub := PrimFloat.sub;
  fmul := PrimFloat.mul;
  fdiv := PrimFloat.div;
  of_int := of_Z;
  round := np_round;
  gt a b := PrimFloat.ltb b a;
  fstr := float_str
|}.

End Binary64.

(** ** Data model *)

Section Model.

Context {R : Type} `{PyFloat R}.

(** One entry of the CoinGecko listing, [GET /coins/list]. *)
Record Coin := {
  coin_id : string;
  coin_symbol : string;
  coin_name : string
}.

(** One hourly candle of the frame returned by [yf.download], after
    [reset_index] has turned the index into the [Datetime] column. *)
Record Candle := {
  Datetime : AwareTimestamp;
  Open : R;
  High : R;
  Low : R;
  Close : R;
  Volume : R
}.

(** A row of the two-column frame [df] handed to Prophet. *)
Record Point := {
  ds : Timestamp;
  y : R
}.

(** A row of Prophet's [forecast] frame, restricted to the columns read. *)
Record ForecastRow := {
  f_ds : Timestamp;
  yhat : R;
  yhat_lower : R;
  yhat_upper : R
}.

(** A [pd.DataFrame]: column labels and rows of cells. *)
Inductive cell :=
  | CInt (z : Z)
  | CFloat (r : R)
  | CStr (s : string).

Record DataFrame := {
  columns : list string;
  rows : list (list cell)
}.

(** The spreadsheet written by [ExcelWriter]: named sheets, each a header
    line followed by data lines. *)
Record Sheet := {
  sheet_header : list string;
  sheet_body : list (list cell)
}.

Record Workbook := {
  sheets : list (string * Sheet)
}.

(** What a run does that is visible from outside: outbound requests and
    calls into Streamlit, in program order. *)
Inductive event :=
  | ReqCoinsList                                   (* GET /coins/list *)
  | ReqYahoo (ticker : string)                     (* yf.download(ticker, 90d, 1h) *)
  | ReqMarketChart (id : string) (from to : Z)     (* GET /coins/{id}/market_chart/range *)
  | StSetPageConfig
  | StTextInput (label : string)
  | StButton (label : string)
  | StTitle (s : string)
  | StHeader (s : string)
  | StMarkdown (s : string)
  | StInfo (s : string)
  | StSuccess (s : string)
  | StWarning (s : string)
  | StError (s : string)
  | StDataframe (t : DataFrame)
  | StDownloadButton (label : string) (data : Workbook) (file_name mime : string).

(** Everything outside the process.  A request either raises (with the
    exception's text) or returns its parsed payload. *)
Record World := {
  coins_list : string + list Coin;
  yf_download : string → string + list Candle;
  market_chart : string → Z → Z → string + list (Stamp * R);
  overflow_text : Z → string;                      (* str(OutOfBoundsDatetime) for a stamp *)
  clock : Z;                                       (* int(datetime.now().timestamp()) *)
  prophet_predict : list Point → Timestamp → R * R * R
}.

(** ** Effects: a trace of events and an outcome *)

Definition M (A : Type) : Type := list event * (exception + A).

Definition ret {A} (a : A) : M A := ([], inr a).

Definition bind {A B} (m : M A) (f : A → M B) : M B :=
  match m with
  | (t, inr a) => let '(t', r) := f a in (t ++ t', r)
  | (t, inl e) => (t, inl e)
  end.

Definition emit (e : event) : M unit := ([e], inr tt).

Definition raise {A} (e : exception) : M A := ([], inl e).

Definition lift {A} (r : exception + A) : M A := ([], r).

(** A request: the event, then the world's answer. *)
Definition request {A} (e : event) (answer : string + A) : M A :=
  ([e], match answer with inl msg => inl (Exception msg) | inr a => inr a end).

(** [try: m  except Exception as e: h e] *)
Definition try_except_Exception {A} (m : M A) (h : string → M A) : M A :=
  match m with
  | (t, inl (Exception msg)) => let '(t', r) := h msg in (t ++ t', r)
  | _ => m
  end.

(** [try: m  except: h], the bare clause, which catches everything. *)
Definition try_except {A} (m : M A) (h : M A) : M A :=
  match m with
  | (t, inl _) => let '(t', r) := h in (t ++ t', r)
  | _ => m
  end.

Definition trace {A} (m : M A) : list event := fst m.
Definition outcome {A} (m : M A) : exception + A := snd m.

End Model.

Arguments Candle : clear implicits.
Arguments Point : clear implicits.
Arguments ForecastRow : clear implicits.
Arguments cell : clear implicits.
Arguments DataFrame : clear implicits.
Arguments Sheet : clear implicits.
Arguments Workbook : clear implicits.
Arguments event : clear implicits.
Arguments World : clear implicits.
Arguments M : clear implicits.

#[export] Instance M_ret {R} : MRet (M R) := @ret R.
#[export] Instance M_bind {R} : MBind (M R) := λ A B f m, bind m f.

(** ** Reading a trace *)

Section TraceViews.

Context {R : Type}.

Definition dataframes (t : list (event R)) : list (DataFrame R) :=
  omap (λ e, match e with StDataframe d => Some d | _ => None end) t.

Definition downloads (t : list (event R)) : list (string * Workbook R * string * string) :=
  omap (λ e, match e with
             | StDownloadButton l d f m => Some (l, d, f, m)
             | _ => None
             end) t.

Definition warnings (t : list (event R)) : list string :=
  omap (λ e, match e with StWarning s => Some s | _ => None end) t.

Definition errors (t : list (event R)) : list string :=
  omap (λ e, match e with StError s => Some s | _ => None end) t.

(** Outbound requests, in order. *)
Definition requests (t : list (event R)) : list (event R) :=
  omap (λ e, match e with
             | ReqCoinsList | ReqYahoo _ | ReqMarketChart _ _ _ => Some e
             | _ => None
             end) t.

End TraceViews.

(** ** The script *)

Section Script.

Context {R : Type} `{PyFloat R}.

(** [str.upper], kept abstract: the script applies it to the typed symbol
    and to every listed symbol. *)
Variable str_upper : string → string.

(** *** Symbol map (lines 15-22) *)

(** The dict comprehension of line 20, which inserts the entries in listing
    order, and the body of [load_coin_mapping]: one request, then the
    comprehension. *)
Definition build_map (data : list Coin) : gmap string string :=
  foldl (λ m coin, <[str_upper (coin_symbol coin) := coin_id coin]> m) ∅ data.

Definition load_coin_mapping (w : World R) : M R (gmap string string) :=
  data ← request ReqCoinsList (coins_list w);
  mret (build_map data).

(** Modelled from the spec: the decorator [@st.cache_data] of line 15 is
    Streamlit's, not the repository's.  Per section 4.1 the mapping is built
    on the first invocation and reused afterwards for the lifetime of the
    process: the body runs only when the cache holds no value, and a call
    that raises stores nothing. *)
Definition st_cache_data {A} (cache : option A) (body : M R A) : M R A :=
  match cache with
  | Some v => mret v
  | None => body
  end.

Definition cache_after {A} (cache : option A) (body : M R A) : option A :=
  match cache with
  | Some v => Some v
  | None => match outcome body with inr v => Some v | inl _ => None end
  end.

(** Line 23. *)
Definition time_slots : list Z := [1] ++ py_range 2 25 2.

(** *** Market data (lines 27-52) *)

(** Lines 31-34: keep [Datetime] without its zone and [Close], renamed. *)
Definition normalize (candles : list (Candle R)) : list (Point R) :=
  map (λ c, {| ds := tz_localize_none (Datetime c); y := Close c |}) candles.

(** Lines 50-51: the frame built from the [prices] array of the market
    chart, its stamps turned into timestamps; the conversion of the column
    raises at the first stamp out of bounds. *)
Fixpoint chart_series (w : World R) (prices : list (Stamp * R))
    : exception + list (Point R) :=
  match prices with
  | [] => inr []
  | (ms, price) :: rest =>
      match to_datetime_ms (overflow_text w) ms with
      | inl e => inl e
      | inr t =>
          match chart_series w rest with
          | inl e => inl e
          | inr df => inr ({| ds := t; y := price |} :: df)
          end
      end
  end.

Definition fetch_market_data (w : World R) (coin_map : gmap string string)
    (coin_input : string) : M R (list (Point R)) :=
  emit (StInfo "📥 Fetching market data...");;
  let ticker := coin_input +:+ "-USD" in
  df ← request (ReqYahoo ticker) (yf_download w ticker);
  match df with
  | _ :: _ =>
      emit (StSuccess "✅ Data loaded from Yahoo Finance.");;
      mret (normalize df)
  | [] =>
      emit (StWarning "⚠ Yahoo Finance failed. Trying CoinGecko...");;
      match coin_map !! coin_input with
      | None =>
          emit (StError "❌ Coin not found on CoinGecko.");;
          raise StopException
      | Some id =>
          let end_ := clock w in
          let start := end_ - 90 * 24 * 60 * 60 in
          prices ← request (ReqMarketChart id start end_) (market_chart w id start end_);
          df ← lift (chart_series w prices);
          emit (StSuccess "✅ Data loaded from CoinGecko.");;
          mret df
      end
  end.

(** *** Forecast (lines 56-63) *)

(** Modelled from the spec: the Prophet library is not part of the
    repository.  Per section 4.3, fitting fails on a too-short series,
    [make_future_dataframe] extends the history by [periods] steps of
    [freq] beyond the latest historical timestamp, and [predict] gives one
    row (point estimate and band) for every timestamp of that frame. *)
Definition prophet_fit (df : list (Point R)) : exception + unit :=
  if (length df <? 2)%nat
  then inl (Exception "Dataframe has less than 2 non-NaN rows.")
  else inr tt.

Definition last_date (dates : list Timestamp) : Timestamp :=
  foldr Z.max (hd 0 dates) dates.

Definition make_future_dataframe (df : list (Point R)) (periods : nat) (freq : Z)
    : list Timestamp :=
  let history := map ds df in
  history ++ map (λ k : nat, last_date history + Z.of_nat k * freq) (seq 1 periods).

Definition predict (w : World R) (df : list (Point R)) (future : list Timestamp)
    : list (ForecastRow R) :=
  map (λ t, let '(p, lo, hi) := prophet_predict w df t in
            {| f_ds := t; yhat := p; yhat_lower := lo; yhat_upper := hi |}) future.

(** Lines 56-62: fit, extend by 24 hourly steps, predict, and keep the rows
    strictly after the last row of [df]. *)
Definition forecast_future (w : World R) (df : list (Point R)) : M R (list (ForecastRow R)) :=
  lift (prophet_fit df);;
  let future := make_future_dataframe df 24 ns_per_hour in
  let forecast := predict w df future in
  now ← lift (iloc (map ds df) (-1));
  mret (filter (λ r, now < f_ds r) forecast).

(** Line 63. *)
Definition current_price_of (df : list (Point R)) : M R R :=
  last_y ← lift (iloc (map y df) (-1));
  mret (round last_y 5).

(** *** Horizon tables (lines 65-96) *)

Definition uptrend_label : string := "🔺 Uptrend".
Definition downtrend_label : string := "🔻 Downtrend".

(** The local variables of one loop iteration. *)
Record HorizonRow := {
  h_hour : Z;
  h_time : string;
  h_current_price : R;
  predicted : R;
  lower : R;
  upper : R;
  change : R;
  pct_change : R;
  trend : string
}.

(** Lines 72-77 and 81. *)
Definition horizon_values (hour : Z) (row : ForecastRow R) (current_price : R) : HorizonRow :=
  let predicted := round (yhat row) 5 in
  let lower := round (yhat_lower row) 5 in
  let upper := round (yhat_upper row) 5 in
  let change := round (fsub predicted current_price) 5 in
  let pct_change := round (fmul (fdiv change current_price) (of_int 100)) 2 in
  let trend := if gt pct_change (of_int 0) then uptrend_label else downtrend_label in
  {| h_hour := hour;
     h_time := strftime_ymd_hm (f_ds row);
     h_current_price := current_price;
     predicted := predicted; lower := lower; upper := upper;
     change := change; pct_change := pct_change; trend := trend |}.

Definition table_headers : list string :=
  [ "Hour Ahead"; "Predicted Time"; "Current Price (USD)"; "Predicted Price (USD)";
    "Lower Prediction (Min Expected Price)"; "Upper Prediction (Max Expected Price)";
    "Change (USD)"; "Change (%)"; "Trend" ].

(** Lines 79-89: the one-row frame shown for a horizon. *)
Definition row_cells (hr : HorizonRow) : list (cell R) :=
  [ CInt (h_hour hr); CStr (h_time hr); CFloat (h_current_price hr);
    CFloat (predicted hr); CFloat (lower hr); CFloat (upper hr);
    CFloat (change hr); CStr (fstr (pct_change hr) +:+ "%");
    CStr (trend hr) ].

Definition table_of (hr : HorizonRow) : DataFrame R :=
  {| columns := table_headers; rows := [row_cells hr] |}.

(** Lines 71-93, the body of the inner [try]. *)
Definition horizon_body (future_data : list (ForecastRow R)) (current_price : R)
    (all_tables : list (DataFrame R)) (hour : Z) : M R (list (DataFrame R)) :=
  row ← lift (iloc future_data (hour - 1));
  let table := table_of (horizon_values hour row current_price) in
  emit (StMarkdown ("### ⏰ Forecast After " +:+ pretty hour +:+ " Hour(s)"));;
  emit (StDataframe table);;
  mret (all_tables ++ [table]).

(** Lines 70-96: the body under its bare [except]. *)
Definition horizon_step (future_data : list (ForecastRow R)) (current_price : R)
    (all_tables : list (DataFrame R)) (hour : Z) : M R (list (DataFrame R)) :=
  try_except (horizon_body future_data current_price all_tables hour)
    (emit (StWarning ("⚠ Not enough data for " +:+ pretty hour +:+ " hours."));;
     mret all_tables).

(** Line 69: [for hour in slots]. *)
Fixpoint horizon_loop (slots : list Z) (future_data : list (ForecastRow R))
    (current_price : R) (all_tables : list (DataFrame R)) : M R (list (DataFrame R)) :=
  match slots with
  | [] => mret all_tables
  | hour :: rest =>
      all_tables' ← horizon_step future_data current_price all_tables hour;
      horizon_loop rest future_data current_price all_tables'
  end.

(** *** Export (lines 99-115) *)

(** [pd.concat(frames, ignore_index=True)] for frames over the same
    columns, as all horizon tables are: the shared columns, the rows one
    after the other. *)
Definition pd_concat (frames : list (DataFrame R)) : DataFrame R :=
  {| columns := match frames with f :: _ => columns f | [] => [] end;
     rows := concat (map rows frames) |}.

(** [convert_excel]: one sheet, header line and data lines, no index. *)
Definition convert_excel (df : DataFrame R) : Workbook R :=
  {| sheets := [("Forecasts", {| sheet_header := columns df; sheet_body := rows df |})] |}.

Definition xlsx_mime : string :=
  "application/vnd.openxmlformats-officedocument.spreadsheetml.sheet".

Definition export (coin_input : string) (all_tables : list (DataFrame R)) : M R unit :=
  match all_tables with
  | [] => mret tt
  | _ :: _ =>
      let full_df := pd_concat all_tables in
      let excel_data := convert_excel full_df in
      emit (StDownloadButton "📥 Download All Forecasts (Excel)" excel_data
              (coin_input +:+ "_forecast.xlsx") xlsx_mime)
  end.

(** *** The pipeline and the page *)

(** Lines 55-115: everything after the series is in [df]. *)
Definition render_forecast (w : World R) (coin_input : string) (df : list (Point R))
    : M R unit :=
  emit (StInfo "🔮 Predicting future prices...");;
  future_data ← forecast_future w df;
  current_price ← current_price_of df;
  emit (StHeader ("📈 " +:+ coin_input +:+ " Forecast Tables (1–24 Hours)"));;
  all_tables ← horizon_loop time_slots future_data current_price [];
  export coin_input all_tables.

(** Lines 27-115, the body of the outer [try]. *)
Definition pipeline (w : World R) (coin_map : gmap string string) (coin_input : string)
    : M R unit :=
  df ← fetch_market_data w coin_map coin_input;
  render_forecast w coin_input df.

(** Lines 26-118: the pipeline under [except Exception as e]. *)
Definition on_predict (w : World R) (coin_map : gmap string string) (coin_input : string)
    : M R unit :=
  try_except_Exception (pipeline w coin_map coin_input)
    (λ e, emit (StError ("❌ Error occurred: " +:+ e))).

(** One run of the page: [text] is what the input box holds, [clicked]
    whether this run was triggered by the button. *)
Definition script (w : World R) (cache : option (gmap string string))
    (text : string) (clicked : bool) : M R unit :=
  emit StSetPageConfig;;
  emit (StTitle "🧠 Altcoin AI Price Predictor (1–24 Hour Forecasts)");;
  emit (StMarkdown "🔮 Enter altcoin symbol to get hourly price forecasts in beautiful tables.");;
  emit (StTextInput "💡 Enter Altcoin Symbol (e.g., BTC, PEPE)");;
  let coin_input := str_upper text in
  coin_map ← st_cache_data cache (load_coin_mapping w);
  emit (StButton "🔍 Predict Price Movement");;
  if clicked then on_predict w coin_map coin_input else mret tt.

(** The cache a run leaves behind. *)
Definition script_cache (w : World R) (cache : option (gmap string string))
    : option (gmap string string) :=
  cache_after cache (load_coin_mapping w).

(** Successive runs of the page in one server process, oldest first. *)
Fixpoint session (cache : option (gmap string string))
    (runs : list (World R * string * bool)) : list (M R unit) :=
  match runs with
  | [] => []
  | (w, text, clicked) :: rest =>
      script w cache text clicked :: session (script_cache w cache) rest
  end.

End Script.

(** ** What one horizon contributes *)

Section HorizonViews.

Context {R : Type} `{PyFloat R}.

Definition not_enough_data (hour : Z) : string :=
  "⚠ Not enough data for " +:+ pretty hour +:+ " hours.".

(** The table appended for [hour], if its row exists. *)
Definition horizon_table (future_data : list (ForecastRow R)) (current_price : R)
    (hour : Z) : option (DataFrame R) :=
  match iloc future_data (hour - 1) with
  | inr row => Some (table_of (horizon_values hour row current_price))
  | inl _ => None
  end.

(** The events of the iteration for [hour]. *)
Definition horizon_events (future_data : list (ForecastRow R)) (current_price : R)
    (hour : Z) : list (event R) :=
  match horizon_table future_data current_price hour with
  | Some table =>
      [ StMarkdown ("### ⏰ Forecast After " +:+ pretty hour +:+ " Hour(s)");
        StDataframe table ]
  | None => [ StWarning (not_enough_data hour) ]
  end.

End HorizonViews.

(** ** Names for the inline steps of the fetch and forecast stages *)

Section StageViews.

Context {R : Type} `{PyFloat R}.

(** The forecast row that [predict] gives for one timestamp. *)
Definition predict_row (w : World R) (df : list (Point R)) (t : Timestamp)
    : ForecastRow R :=
  let '(p, lo, hi) := prophet_predict w df t in
  {| f_ds := t; yhat := p; yhat_lower := lo; yhat_upper := hi |}.

(** The table of horizon [hour] when the forecast row stamped [hour] hours
    after [now] is used. *)
Definition horizon_table_at (w : World R) (df : list (Point R)) (now : Timestamp)
    (current_price : R) (hour : Z) : DataFrame R :=
  table_of (horizon_values hour (predict_row w df (now + hour * ns_per_hour))
              current_price).

(** A price that is a finite number: it lies strictly between two values,
    which neither NaN nor an infinity does. *)
Definition finite_price (x : R) : Prop :=
  ∃ lo hi, gt x lo = true ∧ gt hi x = true.

(** The heading and table shown for a horizon whose row exists. *)
Definition shown_for (table : Z → DataFrame R) (hour : Z) : list (event R) :=
  [ StMarkdown ("### ⏰ Forecast After " +:+ pretty hour +:+ " Hour(s)");
    StDataframe (table hour) ].

End StageViews.

(** ** Sample data *)

(** A small world over binary64, used to run the script: Yahoo knows
    BTC only, the listing has two coins under the symbol PEPE, and the
    forecast oracle answers 105 with the band 104..106. *)
Module Sample.

Import Binary64.

Definition t0 : Timestamp := 1699999200 * 1000000000.   (* 2023-11-14 22:00 *)

Definition stamp_a : Stamp := {| stamp_ms := 1700000000000; stamp_fits := I |}.
Definition stamp_b : Stamp := {| stamp_ms := 1700003600000; stamp_fits := I |}.

Definition candle (k : Z) (close : float) : Candle float :=
  {| Datetime := {| utc_ns := t0 + k * ns_per_hour; utcoffset_ns := 0 |};
     Open := close; High := close; Low := close; Close := close;
     Volume := of_Z 0 |}.

Definition listing : list Coin :=
  [ {| coin_id := "bitcoin"; coin_symbol := "btc"; coin_name := "Bitcoin" |};
    {| coin_id := "pepe"; coin_symbol := "pepe"; coin_name := "Pepe" |};
    {| coin_id := "pepe-2"; coin_symbol := "PEPE"; coin_name := "Pepe 2" |} ].

Definition btc_candles : list (Candle float) :=
  [ candle 0 (of_Z 99); candle 1 (of_Z 100) ].

Definition world : World float :=
  {| coins_list := inr listing;
     yf_download ticker :=
       if decide (ticker = "BTC-USD") then inr btc_candles else inr [];
     market_chart id from to :=
       if decide (id = "pepe-2")
       then inr [ (stamp_a, decimal 5 1); (stamp_b, decimal 25 2) ]
       else inl "KeyError";
     overflow_text ms := "Out of bounds nanosecond timestamp";
     clock := 1700010000;
     prophet_predict df t := (of_Z 105, of_Z 104, of_Z 106) |}.

(** A world in which every request raises. *)
Definition offline : World float :=
  {| coins_list := inl "connection refused";
     yf_download ticker := inl "connection refused";
     market_chart id from to := inl "connection refused";
     overflow_text ms := "Out of bounds nanosecond timestamp";
     clock := 1700010000;
     prophet_predict df t := (of_Z 105, of_Z 104, of_Z 106) |}.

(** A world where Yahoo has nothing, the listing knows DOGE and the chart
    answers as given. *)
Definition fallback_world (chart : string + list (Stamp * float)) : World float :=
  {| coins_list :=
       inr [ {| coin_id := "dogecoin"; coin_symbol := "doge"; coin_name := "Dogecoin" |} ];
     yf_download ticker := inr [];
     market_chart id from to := chart;
     overflow_text ms := "Out of bounds nanosecond timestamp";
     clock := 1700010000;
     prophet_predict df t := (of_Z 105, of_Z 104, of_Z 106) |}.

Definition doge_map : gmap string string := {[ "DOGE" := "dogecoin" ]}.

Definition doge_prices : list (Stamp * float) :=
  [ (stamp_a, decimal 5 1); (stamp_b, decimal 25 2) ].

(** A stamp in the int64 range whose nanoseconds are past [Timestamp.max]. *)
Definition far_stamp : Stamp :=
  {| stamp_ms := 9223372036855; stamp_fits := I |}.

Definition forecast_row (k : nat) (p : float) : ForecastRow float :=
  {| f_ds := t0 + Z.of_nat k * ns_per_hour;
     yhat := p; yhat_lower := PrimFloat.sub p (of_Z 1); yhat_upper := PrimFloat.add p (of_Z 1) |}.

Definition future (n : nat) : list (ForecastRow float) :=
  map (λ k, forecast_row k (of_Z 105)) (seq 1 n).

End Sample.

(** ** Basic facts about traces *)

Section Traces.

Context {R : Type}.

Lemma trace_bind {A B} (m : M R A) (f : A → M R B) :
  trace (m ≫= f) =
  trace m ++ match outcome m with inr a => trace (f a) | inl _ => [] end.
Proof.
  destruct m as [t [e|a]]; cbn; [by rewrite app_nil_r|].
  by destruct (f a).
Qed.

Lemma outcome_bind {A B} (m : M R A) (f : A → M R B) :
  outcome (m ≫= f) =
  match outcome m with inr a => outcome (f a) | inl e => inl e end.
Proof.
  destruct m as [t [e|a]]; cbn; [done|]. by destruct (f a).
Qed.

Lemma filter_none {A} (P : A → Prop) `{∀ x, Decision (P x)} (l : list A) :
  Forall (λ x, ¬ P x) l → filter P l = [].
Proof.
  induction 1 as [|x l Hx _ IH]; [done|]. by rewrite filter_cons_False.
Qed.

Lemma filter_all {A} (P : A → Prop) `{∀ x, Decision (P x)} (l : list A) :
  Forall P l → filter P l = l.
Proof.
  induction 1 as [|x l Hx _ IH]; [done|]. by rewrite filter_cons_True, IH.
Qed.

Lemma omap_cons {A B} (f : A → option B) (x : A) (l : list A) :
  omap f (x :: l) = option_list (f x) ++ omap f l.
Proof. cbn. by destruct (f x). Qed.

Lemma M_eta {A} (m : M R A) : m = (trace m, outcome m).
Proof. by destruct m. Qed.

End Traces.

Ltac unfold_M :=
  unfold mbind, M_bind, mret, M_ret, bind, ret, emit, raise, lift, request,
    try_except, try_except_Exception, trace, outcome in *.

(** ** The symbol map *)

Section SymbolMap.

Context {R : Type} `{PyFloat R}.
Variable str_upper : string → string.

(** Looking a key up in the built map finds the last listed coin whose
    upper-cased symbol is that key. *)
Lemma build_map_lookup (data : list Coin) (s : string) :
  build_map str_upper data !! s =
  coin_id <$> last (filter (λ c, str_upper (coin_symbol c) = s) data).
Proof.
  unfold build_map. induction data as [|c data IH] using rev_ind; [done|].
  rewrite foldl_snoc, filter_app, filter_cons, filter_nil.
  destruct (decide (str_upper (coin_symbol c) = s)) as [->|Hne].
  - by rewrite lookup_insert_eq, last_snoc.
  - by rewrite lookup_insert_ne, app_nil_r.
Qed.

Lemma load_coin_mapping_ok (w : World R) (data : list Coin) :
  coins_list w = inr data →
  load_coin_mapping str_upper w = ([ReqCoinsList], inr (build_map str_upper data)).
Proof. intros Hw. unfold load_coin_mapping. unfold_M. by rewrite Hw. Qed.

(** C9.  When the listing request succeeds, the map that
    [load_coin_mapping] returns sends a key to the identifier of the LAST
    listing entry whose upper-cased symbol is that key; in particular an
    entry is found under its upper-cased symbol unless a later entry has
    the same upper-cased symbol, and a key that is no entry's upper-cased
    symbol is absent, so [coin_map.get] answers [None] for it. *)
Theorem symbol_map_last_wins (w : World R) (data : list Coin) :
  coins_list w = inr data →
  ∃ coin_map : gmap string string,
    outcome (load_coin_mapping str_upper w) = inr coin_map ∧
    (∀ s, coin_map !! s =
          coin_id <$> last (filter (λ c, str_upper (coin_symbol c) = s) data)) ∧
    (∀ before c after,
        data = before ++ c :: after →
        Forall (λ c', str_upper (coin_symbol c') ≠ str_upper (coin_symbol c)) after →
        coin_map !! str_upper (coin_symbol c) = Some (coin_id c)) ∧
    (∀ s, Forall (λ c, str_upper (coin_symbol c) ≠ s) data → coin_map !! s = None).
Proof.
  intros Hw. exists (build_map str_upper data).
  rewrite (load_coin_mapping_ok _ _ Hw). split; [done|].
  split; [apply build_map_lookup|]. split.
  - intros before c after -> Hafter. rewrite build_map_lookup.
    rewrite filter_app, filter_cons_True by done.
    by rewrite (filter_none _ after), last_snoc.
  - intros s Hall. rewrite build_map_lookup.
    by rewrite (filter_none _ data).
Qed.

End SymbolMap.

(** ** Horizon rows *)

Section HorizonRows.

Context {R : Type} `{PyFloat R}.

Lemma trend_labels_differ : uptrend_label ≠ downtrend_label.
Proof. discriminate. Qed.

(** The derived fields of one row, as lines 75-77 compute them. *)
Lemma horizon_values_changes (hour : Z) (row : ForecastRow R) (current_price : R) :
  let hr := horizon_values hour row current_price in
  h_current_price hr = current_price ∧
  predicted hr = round (yhat row) 5 ∧
  change hr = round (fsub (predicted hr) (h_current_price hr)) 5 ∧
  pct_change hr =
    round (fmul (fdiv (change hr) (h_current_price hr)) (of_int 100)) 2 ∧
  (trend hr = uptrend_label ↔ gt (pct_change hr) (of_int 0) = true) ∧
  (trend hr = downtrend_label ↔ gt (pct_change hr) (of_int 0) = false).
Proof.
  cbn. repeat split; try done.
  all: destruct (gt _ _); try done.
  all: intros Heq; by destruct trend_labels_differ.
Qed.

(** C6, as the code has it.  The label is one of the two fixed strings
    ["🔺 Uptrend"] and ["🔻 Downtrend"], marker included: the first when
    [pct_change > 0] and the second otherwise. *)
Theorem trend_is_marked_label (hour : Z) (row : ForecastRow R) (current_price : R) :
  let hr := horizon_values hour row current_price in
  trend hr = (if gt (pct_change hr) (of_int 0) then "🔺 Uptrend" else "🔻 Downtrend") ∧
  (trend hr = "🔺 Uptrend" ∨ trend hr = "🔻 Downtrend") ∧
  ¬ (trend hr = "🔺 Uptrend" ∧ trend hr = "🔻 Downtrend").
Proof.
  cbn. split; [done|]. destruct (gt _ _).
  - split; [by left|]. by intros [_ ?].
  - split; [by right|]. by intros [? _].
Qed.

End HorizonRows.

(** ** The horizon loop *)

Section HorizonLoop.

Context {R : Type} `{PyFloat R}.

Lemma iloc_nonneg {A} (l : list A) (i : Z) :
  0 ≤ i →
  iloc l i = match l !! Z.to_nat i with
             | Some a => inr a
             | None => inl (Exception "single positional indexer is out-of-bounds")
             end.
Proof.
  intros Hi. unfold iloc.
  destruct (Z.ltb_spec i 0); [lia|].
  destruct (Z.leb_spec 0 i); [|lia]. cbn.
  destruct (Z.ltb_spec i (Z.of_nat (length l))); [done|].
  rewrite lookup_ge_None_2; [done|lia].
Qed.

Lemma iloc_last {A} (l : list A) :
  iloc l (-1) = match last l with
                | Some a => inr a
                | None => inl (Exception "single positional indexer is out-of-bounds")
                end.
Proof.
  unfold iloc. rewrite last_lookup. cbn [Z.ltb Z.compare].
  destruct l as [|a l]; [done|].
  replace (Z.of_nat (length (a :: l)) + -1) with (Z.of_nat (length l))
    by (cbn [length]; lia).
  destruct (Z.leb_spec 0 (Z.of_nat (length l))); [|lia].
  destruct (Z.ltb_spec (Z.of_nat (length l)) (Z.of_nat (length (a :: l))));
    [|cbn [length] in *; lia].
  cbn [andb length pred]. rewrite Nat2Z.id.
  by destruct ((a :: l) !! length l).
Qed.

(** One iteration, whatever the horizon. *)
Lemma horizon_step_run (future_data : list (ForecastRow R)) (current_price : R)
    (all_tables : list (DataFrame R)) (hour : Z) :
  horizon_step future_data current_price all_tables hour =
  (horizon_events future_data current_price hour,
   inr (all_tables ++ option_list (horizon_table future_data current_price hour))).
Proof.
  unfold horizon_step, horizon_body, horizon_events, horizon_table.
  unfold_M. destruct (iloc future_data (hour - 1)) as [e|row]; cbn.
  - by rewrite app_nil_r.
  - done.
Qed.

(** The loop never raises: it shows the events of each horizon in turn and
    appends the tables of the horizons whose row exists. *)
Lemma horizon_loop_run (slots : list Z) (future_data : list (ForecastRow R))
    (current_price : R) (all_tables : list (DataFrame R)) :
  horizon_loop slots future_data current_price all_tables =
  (slots ≫= horizon_events future_data current_price,
   inr (all_tables ++ omap (horizon_table future_data current_price) slots)).
Proof.
  revert all_tables. induction slots as [|hour rest IH]; intros all_tables.
  - cbn. by rewrite app_nil_r.
  - cbn [horizon_loop]. rewrite horizon_step_run.
    unfold mbind at 1, M_bind, bind. rewrite IH, bind_cons, omap_cons.
    by rewrite <-app_assoc.
Qed.

Lemma dataframes_horizon_events (slots : list Z) (future_data : list (ForecastRow R))
    (current_price : R) :
  dataframes (slots ≫= horizon_events future_data current_price) =
  omap (horizon_table future_data current_price) slots.
Proof.
  induction slots as [|hour rest IH]; [done|].
  rewrite bind_cons. unfold dataframes in *. rewrite omap_app, IH, omap_cons.
  unfold horizon_events.
  by destruct (horizon_table future_data current_price hour).
Qed.

Lemma downloads_horizon_events (slots : list Z) (future_data : list (ForecastRow R))
    (current_price : R) :
  downloads (slots ≫= horizon_events future_data current_price) = [].
Proof.
  induction slots as [|hour rest IH]; [done|].
  rewrite bind_cons. unfold downloads in *. rewrite omap_app, IH.
  unfold horizon_events.
  by destruct (horizon_table future_data current_price hour).
Qed.

Lemma requests_horizon_events (slots : list Z) (future_data : list (ForecastRow R))
    (current_price : R) :
  requests (slots ≫= horizon_events future_data current_price) = [].
Proof.
  induction slots as [|hour rest IH]; [done|].
  rewrite bind_cons. unfold requests in *. rewrite omap_app, IH.
  unfold horizon_events.
  by destruct (horizon_table future_data current_price hour).
Qed.

(** A horizon from 1 up to the number of future rows has its row, at
    offset [hour - 1]; a larger one has none. *)
Lemma horizon_table_in_range (future_data : list (ForecastRow R)) (current_price : R)
    (hour : Z) :
  1 ≤ hour ≤ Z.of_nat (length future_data) →
  ∃ row, future_data !! Z.to_nat (hour - 1) = Some row ∧
         horizon_table future_data current_price hour =
         Some (table_of (horizon_values hour row current_price)).
Proof.
  intros Hh. unfold horizon_table. rewrite iloc_nonneg by lia.
  destruct (lookup_lt_is_Some_2 future_data (Z.to_nat (hour - 1))) as [row Hrow];
    [lia|].
  exists row. by rewrite Hrow.
Qed.

Lemma horizon_table_out_of_range (future_data : list (ForecastRow R))
    (current_price : R) (hour : Z) :
  Z.of_nat (length future_data) < hour →
  horizon_table future_data current_price hour = None.
Proof.
  intros Hh. unfold horizon_table. rewrite iloc_nonneg by lia.
  rewrite lookup_ge_None_2; [done|lia].
Qed.

(** The tables of a loop over positive horizons: one per horizon within
    range, in the order of the horizons. *)
Lemma horizon_tables_filter (slots : list Z) (future_data : list (ForecastRow R))
    (current_price : R) :
  Forall (λ h, 1 ≤ h) slots →
  Forall2 (λ h t, ∃ row, future_data !! Z.to_nat (h - 1) = Some row ∧
                         t = table_of (horizon_values h row current_price))
    (filter (λ h, h ≤ Z.of_nat (length future_data)) slots)
    (omap (horizon_table future_data current_price) slots).
Proof.
  induction 1 as [|h slots Hh _ IH]; [constructor|].
  rewrite filter_cons, omap_cons.
  destruct (decide (h ≤ Z.of_nat (length future_data))) as [Hle|Hgt].
  - destruct (horizon_table_in_range future_data current_price h) as (row & Hrow & ->);
      [lia|].
    constructor; [by exists row|done].
  - rewrite horizon_table_out_of_range by lia. done.
Qed.

Lemma warnings_horizon_events (slots : list Z) (future_data : list (ForecastRow R))
    (current_price : R) :
  Forall (λ h, 1 ≤ h) slots →
  warnings (slots ≫= horizon_events future_data current_price) =
  not_enough_data <$> filter (λ h, Z.of_nat (length future_data) < h) slots.
Proof.
  induction 1 as [|h slots Hh _ IH]; [done|].
  rewrite bind_cons. unfold warnings in *. rewrite omap_app, IH, filter_cons.
  unfold horizon_events.
  destruct (decide (Z.of_nat (length future_data) < h)) as [Hlt|Hge].
  - by rewrite horizon_table_out_of_range.
  - by destruct (horizon_table_in_range future_data current_price h) as (row & _ & ->);
      [lia|].
Qed.

Lemma time_slots_eq : time_slots = [1; 2; 4; 6; 8; 10; 12; 14; 16; 18; 20; 22; 24].
Proof. reflexivity. Qed.

Lemma time_slots_bounds : Forall (λ h, 1 ≤ h ≤ 24) time_slots.
Proof. rewrite time_slots_eq. repeat constructor; lia. Qed.

Lemma time_slots_positive : Forall (λ h, 1 ≤ h) time_slots.
Proof. eapply Forall_impl; [apply time_slots_bounds|]. cbn. lia. Qed.

(** C3.  The horizons are exactly 1, 2, 4, 6, ..., 24, in ascending order,
    and over a 24-row future sequence the loop builds one table per
    horizon, in that order, the table of horizon [h] from the row at
    zero-based offset [h - 1]. *)
Theorem horizons_and_offsets (future_data : list (ForecastRow R)) (current_price : R) :
  length future_data = 24%nat →
  time_slots = [1; 2; 4; 6; 8; 10; 12; 14; 16; 18; 20; 22; 24] ∧
  StronglySorted Z.lt time_slots ∧
  ∃ tables,
    outcome (horizon_loop time_slots future_data current_price []) = inr tables ∧
    dataframes (trace (horizon_loop time_slots future_data current_price [])) = tables ∧
    Forall2 (λ h t, ∃ row, future_data !! Z.to_nat (h - 1) = Some row ∧
                           t = table_of (horizon_values h row current_price))
      time_slots tables.
Proof.
  intros Hlen. split; [apply time_slots_eq|]. split.
  { rewrite time_slots_eq. repeat constructor; lia. }
  exists (omap (horizon_table future_data current_price) time_slots).
  rewrite horizon_loop_run. cbn [outcome trace fst snd app].
  split; [done|]. split; [apply dataframes_horizon_events|].
  pose proof (horizon_tables_filter time_slots future_data current_price
                time_slots_positive) as Hall.
  rewrite filter_all in Hall; [done|].
  eapply Forall_impl; [apply time_slots_bounds|]. cbn. lia.
Qed.

(** C4.  Over a future sequence of [n < 24] rows the loop still completes:
    it builds and shows, in ascending horizon order, one table for every
    horizon [h ≤ n] (from the row at offset [h - 1]), and it shows one
    warning for every horizon [h > n], each naming its horizon. *)
Theorem short_future_skips_horizons (future_data : list (ForecastRow R))
    (current_price : R) :
  (length future_data < 24)%nat →
  let n := Z.of_nat (length future_data) in
  let run := horizon_loop time_slots future_data current_price [] in
  ∃ tables,
    outcome run = inr tables ∧
    Forall2 (λ h t, ∃ row, future_data !! Z.to_nat (h - 1) = Some row ∧
                           t = table_of (horizon_values h row current_price))
      (filter (λ h, h ≤ n) time_slots) tables ∧
    dataframes (trace run) = tables ∧
    warnings (trace run) = not_enough_data <$> filter (λ h, n < h) time_slots ∧
    not_enough_data 24 ∈ warnings (trace run) ∧
    trace run = time_slots ≫= horizon_events future_data current_price.
Proof.
  intros Hshort n run. subst n run.
  exists (omap (horizon_table future_data current_price) time_slots).
  rewrite horizon_loop_run. cbn [outcome trace fst snd app].
  split; [done|].
  split; [apply horizon_tables_filter, time_slots_positive|].
  split; [apply dataframes_horizon_events|].
  rewrite warnings_horizon_events by apply time_slots_positive.
  split; [done|]. split; [|done].
  apply list_elem_of_fmap. exists 24. split; [done|].
  apply list_elem_of_filter. split; [lia|].
  rewrite time_slots_eq. set_solver.
Qed.

End HorizonLoop.

(** ** The forecast stage *)

Section Forecast.

Context {R : Type} `{PyFloat R}.

Lemma foldr_max_bound (l : list Z) (d x : Z) :
  Forall (λ t, t ≤ x) l → d ≤ x → x ∈ l → foldr Z.max d l = x.
Proof.
  induction 1 as [|a l Ha Hl IH]; intros Hd Hx; [by apply elem_of_nil in Hx|].
  cbn. apply elem_of_cons in Hx as [->|Hx].
  - assert (foldr Z.max d l ≤ a); [|lia].
    clear IH. induction Hl as [|b l Hb _ IH]; cbn; lia.
  - rewrite IH by done. lia.
Qed.

Lemma sorted_below_last (l : list Z) (x : Z) :
  StronglySorted Z.lt l → last l = Some x → Forall (λ t, t ≤ x) l.
Proof.
  induction 1 as [|a l Hsorted IH Ha]; intros Hlast; [constructor|].
  destruct l as [|b l].
  - cbn in Hlast. injection Hlast as ->. repeat constructor. lia.
  - rewrite last_cons_cons in Hlast. constructor; [|by apply IH].
    apply last_Some_elem_of in Hlast.
    rewrite Forall_forall in Ha. specialize (Ha x Hlast). lia.
Qed.

(** On strictly increasing dates the latest date is the last one. *)
Lemma last_date_sorted (l : list Z) (x : Z) :
  StronglySorted Z.lt l → last l = Some x → last_date l = x.
Proof.
  intros Hsorted Hlast. pose proof (sorted_below_last l x Hsorted Hlast) as Hall.
  unfold last_date. apply foldr_max_bound; [done| |by apply last_Some_elem_of].
  destruct l as [|a l]; [done|]. cbn. by inversion Hall.
Qed.

Lemma predict_dates (w : World R) (df : list (Point R)) (now : Z)
    (future : list Timestamp) :
  f_ds <$> filter (λ r, now < f_ds r) (predict w df future) =
  filter (λ t, now < t) future.
Proof.
  unfold predict. induction future as [|t future IH]; [done|].
  cbn [map]. rewrite !filter_cons.
  destruct (prophet_predict w df t) as [[p lo] hi]. cbn [f_ds].
  destruct (decide (now < t)); [|done].
  cbn [fmap list_fmap f_ds]. by f_equal.
Qed.

(** C2.  On a series of at least two points with strictly increasing
    timestamps the forecast stage returns, and what it keeps after the
    filter [ds > now] is exactly 24 rows: row [i] (from 0) is stamped
    [i + 1] hours after the last historical timestamp, so the rows lie
    strictly after it, strictly increase and are one hour apart. *)
Theorem forecast_future_24 (w : World R) (df : list (Point R)) :
  (2 ≤ length df)%nat →
  StronglySorted Z.lt (ds <$> df) →
  ∃ now future_data,
    last (ds <$> df) = Some now ∧
    forecast_future w df = ([], inr future_data) ∧
    length future_data = 24%nat ∧
    (∀ i r, future_data !! i = Some r →
            f_ds r = now + (Z.of_nat i + 1) * ns_per_hour) ∧
    Forall (λ r, now < f_ds r) future_data ∧
    StronglySorted Z.lt (f_ds <$> future_data).
Proof.
  intros Hlen Hsorted.
  destruct (last (ds <$> df)) as [now|] eqn:Hlast; cycle 1.
  { apply last_None in Hlast. destruct df; [cbn in Hlen; lia|done]. }
  exists now,
    (filter (λ r, now < f_ds r)
       (predict w df (make_future_dataframe df 24 ns_per_hour))).
  split; [done|].
  assert (f_ds <$> filter (λ r, now < f_ds r)
            (predict w df (make_future_dataframe df 24 ns_per_hour)) =
          (λ k : nat, now + Z.of_nat k * ns_per_hour) <$> seq 1 24) as Hdates.
  { rewrite predict_dates. unfold make_future_dataframe.
    change (map ds df) with (ds <$> df).
    rewrite (last_date_sorted _ _ Hsorted Hlast), filter_app.
    rewrite filter_none, filter_all; [done| |].
    - apply Forall_forall. intros t Ht.
      apply list_elem_of_In, in_map_iff in Ht as (k & <- & Hk).
      apply in_seq in Hk. unfold ns_per_hour, ns_per_minute. lia.
    - eapply Forall_impl; [apply (sorted_below_last _ _ Hsorted Hlast)|].
      cbn. lia. }
  split.
  { unfold forecast_future. unfold_M. unfold prophet_fit.
    destruct (Nat.ltb_spec (length df) 2); [lia|].
    change (map ds df) with (ds <$> df). rewrite iloc_last, Hlast. done. }
  split.
  { rewrite <-(length_fmap f_ds), Hdates, length_fmap. apply length_seq. }
  split.
  { intros i r Hr.
    assert ((f_ds <$> filter (λ r, now < f_ds r)
               (predict w df (make_future_dataframe df 24 ns_per_hour))) !! i
            = Some (f_ds r)) as Hi by (by rewrite list_lookup_fmap, Hr).
    rewrite Hdates, list_lookup_fmap in Hi.
    destruct (seq 1 24 !! i) as [k|] eqn:Hk; [|done].
    apply lookup_seq in Hk as [-> _]. cbn in Hi. injection Hi as <-. lia. }
  split.
  { apply Forall_forall. intros r Hr.
    by apply list_elem_of_filter in Hr as [? _]. }
  rewrite Hdates. cbn. unfold ns_per_hour, ns_per_minute.
  repeat (constructor; [|repeat (constructor; [lia|])]); constructor.
Qed.

End Forecast.

(** ** The pipeline as a whole *)

Section Pipeline.

Context {R : Type} `{PyFloat R}.

(** The fetch stage, case by case. *)
Lemma fetch_download_raises (w : World R) (coin_map : gmap string string)
    (coin_input msg : string) :
  yf_download w (coin_input +:+ "-USD") = inl msg →
  fetch_market_data w coin_map coin_input =
  ([ StInfo "📥 Fetching market data..."; ReqYahoo (coin_input +:+ "-USD") ],
   inl (Exception msg)).
Proof. intros Hy. unfold fetch_market_data. unfold_M. by rewrite Hy. Qed.

Lemma fetch_primary (w : World R) (coin_map : gmap string string)
    (coin_input : string) (c : Candle R) (cs : list (Candle R)) :
  yf_download w (coin_input +:+ "-USD") = inr (c :: cs) →
  fetch_market_data w coin_map coin_input =
  ([ StInfo "📥 Fetching market data..."; ReqYahoo (coin_input +:+ "-USD");
     StSuccess "✅ Data loaded from Yahoo Finance." ],
   inr (normalize (c :: cs))).
Proof. intros Hy. unfold fetch_market_data. unfold_M. by rewrite Hy. Qed.

Lemma fetch_not_found (w : World R) (coin_map : gmap string string)
    (coin_input : string) :
  yf_download w (coin_input +:+ "-USD") = inr [] →
  coin_map !! coin_input = None →
  fetch_market_data w coin_map coin_input =
  ([ StInfo "📥 Fetching market data..."; ReqYahoo (coin_input +:+ "-USD");
     StWarning "⚠ Yahoo Finance failed. Trying CoinGecko...";
     StError "❌ Coin not found on CoinGecko." ],
   inl StopException).
Proof. intros Hy Hm. unfold fetch_market_data. unfold_M. by rewrite Hy, Hm. Qed.

(** The fetch stage shows no table and no download button. *)
Lemma fetch_shows_nothing (w : World R) (coin_map : gmap string string)
    (coin_input : string) :
  dataframes (trace (fetch_market_data w coin_map coin_input)) = [] ∧
  downloads (trace (fetch_market_data w coin_map coin_input)) = [].
Proof.
  unfold fetch_market_data. unfold_M.
  destruct (yf_download w _) as [msg|[|c cs]]; [done| |done].
  destruct (coin_map !! coin_input) as [id|]; [|done].
  destruct (market_chart w id _ _) as [msg|prices]; [done|].
  by destruct (chart_series w prices).
Qed.

Lemma iloc_raises_Exception {A} (l : list A) (i : Z) (e : exception) :
  iloc l i = inl e → ∃ msg, e = Exception msg.
Proof.
  unfold iloc. destruct (_ && _); [destruct (l !! _)|]; intros [= <-]; by eexists.
Qed.

Lemma export_run (coin_input : string) (all_tables : list (DataFrame R)) :
  export coin_input all_tables =
  (match all_tables with
   | [] => []
   | _ :: _ =>
       [ StDownloadButton "📥 Download All Forecasts (Excel)"
           (convert_excel (pd_concat all_tables))
           (coin_input +:+ "_forecast.xlsx") xlsx_mime ]
   end, inr tt).
Proof. by destruct all_tables. Qed.

(** After the fetch, either the forecast stage raises an [Exception] before
    anything but the progress note is shown, or the run goes through the
    header, the horizon loop and the export. *)
Lemma render_forecast_run (w : World R) (coin_input : string) (df : list (Point R)) :
  (∃ msg, render_forecast w coin_input df =
          ([ StInfo "🔮 Predicting future prices..." ], inl (Exception msg))) ∨
  (∃ future_data current_price,
      render_forecast w coin_input df =
      (StInfo "🔮 Predicting future prices..." ::
       StHeader ("📈 " +:+ coin_input +:+ " Forecast Tables (1–24 Hours)") ::
       (time_slots ≫= horizon_events future_data current_price) ++
       trace (export coin_input
                (omap (horizon_table future_data current_price) time_slots)),
       inr tt)).
Proof.
  unfold render_forecast, forecast_future, current_price_of.
  destruct (prophet_fit df) as [e|[]] eqn:Hfit.
  { left. revert Hfit. unfold prophet_fit.
    destruct (_ <? _)%nat; intros [= <-]. eexists. by unfold_M. }
  destruct (iloc (map ds df) (-1)) as [e|now] eqn:Hnow.
  { left. destruct (iloc_raises_Exception _ _ _ Hnow) as [msg ->].
    exists msg. by unfold_M. }
  destruct (iloc (map y df) (-1)) as [e|last_y] eqn:Hy.
  { left. destruct (iloc_raises_Exception _ _ _ Hy) as [msg ->].
    exists msg. by unfold_M. }
  right.
  exists (filter (λ r, now < f_ds r)
            (predict w df (make_future_dataframe df 24 ns_per_hour))),
         (round last_y 5).
  unfold_M. rewrite horizon_loop_run, !export_run. cbn [app fst]. reflexivity.
Qed.

(** The handler turns an [Exception] of the pipeline into one error
    message and lets [StopException] through. *)
Lemma on_predict_run (w : World R) (coin_map : gmap string string)
    (coin_input : string) :
  on_predict w coin_map coin_input =
  match pipeline w coin_map coin_input with
  | (t, inl (Exception msg)) => (t ++ [StError ("❌ Error occurred: " +:+ msg)], inr tt)
  | (t, r) => (t, r)
  end.
Proof.
  unfold on_predict, try_except_Exception.
  by destruct (pipeline w coin_map coin_input) as [t [[msg|]|[]]].
Qed.

Lemma pipeline_run (w : World R) (coin_map : gmap string string)
    (coin_input : string) :
  pipeline w coin_map coin_input =
  match fetch_market_data w coin_map coin_input with
  | (t, inl e) => (t, inl e)
  | (t, inr df) =>
      (t ++ trace (render_forecast w coin_input df),
       outcome (render_forecast w coin_input df))
  end.
Proof.
  unfold pipeline. unfold_M.
  destruct (fetch_market_data w coin_map coin_input) as [t [e|df]]; [done|].
  by destruct (render_forecast w coin_input df).
Qed.

(** What a prediction shows: the tables of the horizon loop over some
    future sequence, or none when the run ended before the loop, and the
    download button that [export] derives from exactly those tables. *)
Lemma on_predict_tables (w : World R) (coin_map : gmap string string)
    (coin_input : string) :
  ∃ slots future_data current_price,
    (slots = [] ∨ slots = time_slots) ∧
    dataframes (trace (on_predict w coin_map coin_input)) =
      omap (horizon_table future_data current_price) slots ∧
    downloads (trace (on_predict w coin_map coin_input)) =
      downloads (trace (export coin_input
                          (omap (horizon_table future_data current_price) slots))).
Proof.
  rewrite on_predict_run, pipeline_run.
  destruct (fetch_shows_nothing w coin_map coin_input) as [Hdf Hdl].
  destruct (fetch_market_data w coin_map coin_input) as [t [e|df]];
    cbn [trace fst] in Hdf, Hdl.
  { exists [], [], (of_int 0). split; [by left|].
    destruct e as [msg|]; cbn [trace fst]; unfold dataframes, downloads in *;
      rewrite ?omap_app, ?Hdf, ?Hdl; done. }
  destruct (render_forecast_run w coin_input df)
    as [[msg ->]|(future_data & current_price & ->)]; cbn [trace outcome fst snd].
  { exists [], [], (of_int 0). split; [by left|].
    unfold dataframes, downloads in *. rewrite !omap_app, ?Hdf, ?Hdl. done. }
  exists time_slots, future_data, current_price. split; [by right|].
  rewrite export_run. cbn [fst].
  pose proof (dataframes_horizon_events time_slots future_data current_price) as Hd.
  pose proof (downloads_horizon_events time_slots future_data current_price) as Hl.
  unfold dataframes, downloads in *.
  rewrite !omap_app, !omap_cons, !omap_app, Hdf, Hdl, Hd, Hl. cbn [option_list app].
  split; [|done].
  destruct (omap (horizon_table future_data current_price) time_slots);
    cbn; by rewrite ?app_nil_r.
Qed.

(** The only requests of a prediction are those of its fetch stage. *)
Lemma on_predict_requests (w : World R) (coin_map : gmap string string)
    (coin_input : string) :
  requests (trace (on_predict w coin_map coin_input)) =
  requests (trace (fetch_market_data w coin_map coin_input)).
Proof.
  rewrite on_predict_run, pipeline_run.
  destruct (fetch_market_data w coin_map coin_input) as [t [e|df]]; cbn [trace fst].
  { destruct e as [msg|]; cbn [trace fst]; [|done].
    unfold requests. rewrite omap_app. cbn. by rewrite app_nil_r. }
  destruct (render_forecast_run w coin_input df)
    as [[msg ->]|(future_data & current_price & ->)]; cbn [trace outcome fst snd].
  { unfold requests. rewrite !omap_app. cbn. by rewrite !app_nil_r. }
  rewrite export_run. cbn [fst].
  pose proof (requests_horizon_events time_slots future_data current_price) as Hr.
  unfold requests in *.
  rewrite !omap_app, !omap_cons, !omap_app, Hr. cbn [option_list app].
  destruct (omap (horizon_table future_data current_price) time_slots);
    cbn; by rewrite ?app_nil_r.
Qed.

Lemma elem_of_requests (t : list (event R)) (id : string) (from to : Z) :
  ReqMarketChart id from to ∈ t → ReqMarketChart id from to ∈ requests t.
Proof.
  intros Hin. unfold requests. apply list_elem_of_omap.
  by exists (ReqMarketChart id from to).
Qed.

Lemma requests_subset (t : list (event R)) (e : event R) :
  e ∈ requests t → e ∈ t.
Proof.
  unfold requests. intros (e' & Hin & Heq)%list_elem_of_omap.
  destruct e'; try done; by injection Heq as <-.
Qed.

(** Every built table is the one-row frame of a horizon row, and the
    horizons of the built rows follow the order of the slots. *)
Lemma tables_are_rows (slots : list Z) (future_data : list (ForecastRow R))
    (current_price : R) :
  ∃ hrs : list HorizonRow,
    omap (horizon_table future_data current_price) slots = table_of <$> hrs ∧
    sublist (h_hour <$> hrs) slots.
Proof.
  induction slots as [|h slots (hrs & IHt & IHs)]; [by exists []|].
  rewrite omap_cons. unfold horizon_table at 1.
  destruct (iloc future_data (h - 1)) as [e|row].
  - exists hrs. split; [done|]. by apply sublist_cons.
  - exists (horizon_values h row current_price :: hrs).
    split; [cbn; by rewrite IHt|]. by apply sublist_skip.
Qed.

Lemma concat_rows_tables (hrs : list HorizonRow) :
  concat (map rows (table_of <$> hrs)) = row_cells <$> hrs.
Proof.
  induction hrs as [|x l IH]; [done|].
  cbn [fmap list_fmap map concat rows table_of app] in *. by f_equal.
Qed.

Lemma pd_concat_tables (hr : HorizonRow) (hrs : list HorizonRow) :
  pd_concat (table_of hr :: (table_of <$> hrs)) =
  {| columns := table_headers; rows := row_cells hr :: (row_cells <$> hrs) |}.
Proof.
  unfold pd_concat. cbn [map concat rows table_of app columns].
  by rewrite concat_rows_tables.
Qed.

(** The cached call sends the listing request or nothing. *)
Lemma cached_load_trace (str_upper : string → string) (w : World R)
    (cache : option (gmap string string)) :
  trace (st_cache_data cache (load_coin_mapping str_upper w)) = [] ∨
  trace (st_cache_data cache (load_coin_mapping str_upper w)) = [ReqCoinsList].
Proof.
  destruct cache as [m|]; [by left|right].
  unfold st_cache_data, load_coin_mapping. unfold_M.
  by destruct (coins_list w).
Qed.

(** A page run: the page head, the cached call, then the button and, if it
    was clicked, the prediction. *)
Lemma script_run (str_upper : string → string) (w : World R)
    (cache : option (gmap string string)) (text : string) (clicked : bool) :
  script str_upper w cache text clicked =
  ([ StSetPageConfig;
     StTitle "🧠 Altcoin AI Price Predictor (1–24 Hour Forecasts)";
     StMarkdown "🔮 Enter altcoin symbol to get hourly price forecasts in beautiful tables.";
     StTextInput "💡 Enter Altcoin Symbol (e.g., BTC, PEPE)" ] ++
   trace (st_cache_data cache (load_coin_mapping str_upper w)) ++
   match outcome (st_cache_data cache (load_coin_mapping str_upper w)) with
   | inl _ => []
   | inr coin_map =>
       StButton "🔍 Predict Price Movement" ::
       (if clicked then trace (on_predict w coin_map (str_upper text)) else [])
   end,
   match outcome (st_cache_data cache (load_coin_mapping str_upper w)) with
   | inl e => inl e
   | inr coin_map =>
       if clicked then outcome (on_predict w coin_map (str_upper text)) else inr tt
   end).
Proof.
  unfold script.
  destruct (st_cache_data cache (load_coin_mapping str_upper w)) as [t [e|m]].
  - unfold_M. cbn [fst snd app]. by rewrite app_nil_r.
  - unfold_M. cbn [fst snd app]. destruct clicked.
    + by destruct (on_predict w m (str_upper text)).
    + done.
Qed.

Lemma tables_are_built_rows (slots : list Z) (future_data : list (ForecastRow R))
    (current_price : R) :
  ∃ hrs : list HorizonRow,
    omap (horizon_table future_data current_price) slots = table_of <$> hrs ∧
    Forall (λ hr, ∃ hour row, hr = horizon_values hour row current_price) hrs.
Proof.
  induction slots as [|h slots (hrs & IHt & IHr)]; [by exists []|].
  rewrite omap_cons. unfold horizon_table at 1.
  destruct (iloc future_data (h - 1)) as [e|row].
  - by exists hrs.
  - exists (horizon_values h row current_price :: hrs).
    split; [cbn; by rewrite IHt|]. constructor; [by exists h, row|done].
Qed.

(** C1, as the code has it.  A row built from a forecast row and a current
    price has [change = round(predicted - current_price, 5)], has
    [pct_change = round((change / current_price) * 100, 2)], the quotient
    taken first and then multiplied by 100, computed from that rounded
    [change], and carries the uptrend label exactly when [pct_change > 0];
    whenever [pct_change > 0] is false (a zero change included) it carries
    the downtrend label.  Every table a prediction shows is the one-row
    frame of such a row. *)
Theorem rows_follow_change_rules :
  (∀ (hour : Z) (row : ForecastRow R) (current_price : R),
      let hr := horizon_values hour row current_price in
      h_current_price hr = current_price ∧
      predicted hr = round (yhat row) 5 ∧
      change hr = round (fsub (predicted hr) (h_current_price hr)) 5 ∧
      pct_change hr =
        round (fmul (fdiv (change hr) (h_current_price hr)) (of_int 100)) 2 ∧
      (trend hr = uptrend_label ↔ gt (pct_change hr) (of_int 0) = true) ∧
      (trend hr = downtrend_label ↔ gt (pct_change hr) (of_int 0) = false)) ∧
  (∀ (w : World R) (coin_map : gmap string string) (coin_input : string),
      ∃ hrs : list HorizonRow,
        dataframes (trace (on_predict w coin_map coin_input)) = table_of <$> hrs ∧
        Forall (λ hr,
          change hr = round (fsub (predicted hr) (h_current_price hr)) 5 ∧
          pct_change hr =
            round (fmul (fdiv (change hr) (h_current_price hr)) (of_int 100)) 2 ∧
          (trend hr = uptrend_label ↔ gt (pct_change hr) (of_int 0) = true) ∧
          (trend hr = downtrend_label ↔ gt (pct_change hr) (of_int 0) = false))
          hrs).
Proof.
  split; [apply horizon_values_changes|].
  intros w coin_map coin_input.
  destruct (on_predict_tables w coin_map coin_input)
    as (slots & future_data & current_price & _ & -> & _).
  destruct (tables_are_built_rows slots future_data current_price)
    as (hrs & -> & Hbuilt).
  exists hrs. split; [done|].
  eapply Forall_impl; [apply Hbuilt|].
  intros hr (hour & row & ->).
  destruct (horizon_values_changes hour row current_price)
    as (_ & _ & Hchange & Hpct & Hup & Hdown).
  done.
Qed.

(** C5.  When the primary source returns an empty result and the symbol is
    not a key of the symbol map, the prediction shows the "Coin not found"
    error and stops: the run ends by [st.stop()], which the catch-all
    handler does not intercept, no table is shown and no download button
    is offered.  The same holds for the page run as a whole. *)
Theorem unresolvable_symbol_stops (w : World R) (coin_map : gmap string string)
    (coin_input : string) :
  yf_download w (coin_input +:+ "-USD") = inr [] →
  coin_map !! coin_input = None →
  on_predict w coin_map coin_input =
    ([ StInfo "📥 Fetching market data..."; ReqYahoo (coin_input +:+ "-USD");
       StWarning "⚠ Yahoo Finance failed. Trying CoinGecko...";
       StError "❌ Coin not found on CoinGecko." ],
     inl StopException) ∧
  dataframes (trace (on_predict w coin_map coin_input)) = [] ∧
  downloads (trace (on_predict w coin_map coin_input)) = [] ∧
  (∀ (str_upper : string → string) (cache : option (gmap string string))
     (text : string),
      str_upper text = coin_input →
      outcome (st_cache_data cache (load_coin_mapping str_upper w)) = inr coin_map →
      let run := script str_upper w cache text true in
      outcome run = inl StopException ∧
      errors (trace run) = [ "❌ Coin not found on CoinGecko." ] ∧
      dataframes (trace run) = [] ∧
      downloads (trace run) = []).
Proof.
  intros Hy Hm.
  assert (on_predict w coin_map coin_input =
    ([ StInfo "📥 Fetching market data..."; ReqYahoo (coin_input +:+ "-USD");
       StWarning "⚠ Yahoo Finance failed. Trying CoinGecko...";
       StError "❌ Coin not found on CoinGecko." ],
     inl StopException)) as Hrun.
  { by rewrite on_predict_run, pipeline_run, (fetch_not_found _ _ _ Hy Hm). }
  split; [done|]. rewrite Hrun. split; [done|]. split; [done|].
  intros str_upper cache text Htext Hload run. subst run.
  rewrite script_run, Hload, Htext, Hrun. cbn [trace outcome fst snd].
  split; [done|].
  by destruct (cached_load_trace str_upper w cache) as [-> | ->].
Qed.

(** C7.  When the primary source returns a non-empty frame, the fetch stage
    returns it normalised (the wall-clock time of each candle without its
    zone, and its close) after the single Yahoo request, and the whole
    prediction sends no other request; conversely a market-chart request
    appears in a prediction only if the primary result was empty. *)
Theorem primary_source_first (w : World R) (coin_map : gmap string string)
    (coin_input : string) :
  (∀ c cs,
      yf_download w (coin_input +:+ "-USD") = inr (c :: cs) →
      fetch_market_data w coin_map coin_input =
        ([ StInfo "📥 Fetching market data..."; ReqYahoo (coin_input +:+ "-USD");
           StSuccess "✅ Data loaded from Yahoo Finance." ],
         inr (normalize (c :: cs))) ∧
      ds <$> normalize (c :: cs) =
        (λ k, utc_ns (Datetime k) + utcoffset_ns (Datetime k)) <$> c :: cs ∧
      y <$> normalize (c :: cs) = Close <$> c :: cs ∧
      requests (trace (on_predict w coin_map coin_input)) =
        [ ReqYahoo (coin_input +:+ "-USD") ]) ∧
  (∀ id from to,
      ReqMarketChart id from to ∈ trace (on_predict w coin_map coin_input) →
      yf_download w (coin_input +:+ "-USD") = inr []) ∧
  (∀ (str_upper : string → string) (cache : option (gmap string string))
     (text : string) (clicked : bool) id from to,
      str_upper text = coin_input →
      ReqMarketChart id from to ∈ trace (script str_upper w cache text clicked) →
      yf_download w (coin_input +:+ "-USD") = inr []).
Proof.
  assert (∀ coin_map' id from to,
            ReqMarketChart id from to ∈ trace (on_predict w coin_map' coin_input) →
            yf_download w (coin_input +:+ "-USD") = inr []) as Honly.
  { intros coin_map' id from to Hin%elem_of_requests.
    rewrite on_predict_requests in Hin.
    destruct (yf_download w (coin_input +:+ "-USD")) as [msg|[|c cs]] eqn:Hy;
      [|done|].
    + rewrite (fetch_download_raises _ _ _ _ Hy) in Hin. cbn in Hin.
      by apply list_elem_of_singleton in Hin.
    + rewrite (fetch_primary _ _ _ _ _ Hy) in Hin. cbn in Hin.
      by apply list_elem_of_singleton in Hin. }
  split; [|split; [by apply Honly|]]; cycle 1.
  { intros str_upper cache text clicked id from to Htext Hin.
    rewrite script_run in Hin. cbn [trace fst] in Hin.
    repeat (apply elem_of_cons in Hin as [Hin|Hin]; [discriminate|]).
    apply elem_of_app in Hin as [Hin|Hin].
    { by destruct (cached_load_trace str_upper w cache) as [Ht|Ht];
        rewrite Ht in Hin; [apply elem_of_nil in Hin
                           |apply list_elem_of_singleton in Hin]. }
    destruct (outcome (st_cache_data cache _)) as [e|m];
      [by apply elem_of_nil in Hin|].
    apply elem_of_cons in Hin as [Hin|Hin]; [discriminate|].
    destruct clicked; [|by apply elem_of_nil in Hin].
    rewrite Htext in Hin. by apply (Honly m id from to). }
  intros c cs Hy. split; [by apply fetch_primary|].
  split; [|split].
  - unfold normalize. generalize (c :: cs). intros l.
    induction l as [|k l IH]; [done|]. cbn. f_equal. apply IH.
  - unfold normalize. generalize (c :: cs). intros l.
    induction l as [|k l IH]; [done|]. cbn. f_equal. apply IH.
  - by rewrite on_predict_requests, (fetch_primary _ _ _ _ _ Hy).
Qed.

(** C8.  In every prediction the tables shown are the one-row frames of the
    built horizon rows, in horizon order, each under the nine display
    headers.  If none was built no download button is offered; otherwise
    exactly one is, for the file [{coin_input}_forecast.xlsx], whose
    workbook has the single sheet [Forecasts] with those same headers and
    one data line per built row, in the same order. *)
Theorem export_matches_tables (w : World R) (coin_map : gmap string string)
    (coin_input : string) :
  let t := trace (on_predict w coin_map coin_input) in
  ∃ hrs : list HorizonRow,
    dataframes t = table_of <$> hrs ∧
    sublist (h_hour <$> hrs) time_slots ∧
    Forall (λ d, columns d = table_headers) (dataframes t) ∧
    length (row_cells <$> hrs) = length (dataframes t) ∧
    downloads t =
      match hrs with
      | [] => []
      | _ :: _ =>
          [ ("📥 Download All Forecasts (Excel)",
             {| sheets := [ ("Forecasts",
                             {| sheet_header := table_headers;
                                sheet_body := row_cells <$> hrs |}) ] |},
             coin_input +:+ "_forecast.xlsx", xlsx_mime) ]
      end.
Proof.
  intros t. subst t.
  destruct (on_predict_tables w coin_map coin_input)
    as (slots & future_data & current_price & Hslots & -> & ->).
  destruct (tables_are_rows slots future_data current_price) as (hrs & -> & Hsub).
  exists hrs. split; [done|]. split.
  { destruct Hslots as [->| ->]; [|done].
    apply sublist_nil_r in Hsub. rewrite Hsub. apply sublist_nil_l. }
  split; [by apply Forall_fmap, Forall_true|].
  split; [by rewrite !length_fmap|].
  rewrite export_run. destruct hrs as [|hr hrs]; [done|].
  cbn [fmap list_fmap trace fst].
  by rewrite (pd_concat_tables hr hrs).
Qed.

End Pipeline.

(** ** The page run and the cached listing *)

Section PageRun.

Context {R : Type} `{PyFloat R}.
Variable str_upper : string → string.

Lemma no_listing_request_in_fetch (w : World R) (coin_map : gmap string string)
    (coin_input : string) :
  ReqCoinsList ∉ trace (fetch_market_data w coin_map coin_input).
Proof.
  unfold fetch_market_data. unfold_M. intros Hin.
  destruct (yf_download w _) as [msg|[|c cs]];
    [| destruct (coin_map !! coin_input) as [id|];
       [destruct (market_chart w id _ _) as [msg|prices];
        [|destruct (chart_series w prices)]|] |];
    cbn in Hin;
    repeat (apply elem_of_cons in Hin as [Hin|Hin]; [discriminate|]);
    by apply elem_of_nil in Hin.
Qed.

Lemma no_listing_request_in_prediction (w : World R) (coin_map : gmap string string)
    (coin_input : string) :
  ReqCoinsList ∉ trace (on_predict w coin_map coin_input).
Proof.
  intros Hin.
  assert (ReqCoinsList ∈ requests (trace (on_predict w coin_map coin_input))) as Hreq.
  { unfold requests. apply list_elem_of_omap. by exists ReqCoinsList. }
  rewrite on_predict_requests in Hreq. apply requests_subset in Hreq.
  by apply no_listing_request_in_fetch in Hreq.
Qed.

(** C10, as the code has it.  The call to [load_coin_mapping] is at the top
    level of the page, before the button and outside the pipeline's
    handler, and it is memoised.  On a run that finds the cache empty the
    listing request is sent right after the page head, whether or not the
    button was clicked; if it succeeds the map is built and cached and the
    run goes on; if it raises, the run ends there with that exception,
    uncaught, and nothing is cached.  On a run that finds a cached map no
    listing request is sent at all. *)
Theorem listing_request_when_cache_empty (w : World R) (text : string) (clicked : bool) :
  (∃ rest,
      trace (script str_upper w None text clicked) =
      [ StSetPageConfig;
        StTitle "🧠 Altcoin AI Price Predictor (1–24 Hour Forecasts)";
        StMarkdown "🔮 Enter altcoin symbol to get hourly price forecasts in beautiful tables.";
        StTextInput "💡 Enter Altcoin Symbol (e.g., BTC, PEPE)";
        ReqCoinsList ] ++ rest) ∧
  (∀ data,
      coins_list w = inr data →
      script str_upper w None text clicked =
      ([ StSetPageConfig;
         StTitle "🧠 Altcoin AI Price Predictor (1–24 Hour Forecasts)";
         StMarkdown "🔮 Enter altcoin symbol to get hourly price forecasts in beautiful tables.";
         StTextInput "💡 Enter Altcoin Symbol (e.g., BTC, PEPE)";
         ReqCoinsList;
         StButton "🔍 Predict Price Movement" ] ++
       (if clicked
        then trace (on_predict w (build_map str_upper data) (str_upper text))
        else []),
       if clicked
       then outcome (on_predict w (build_map str_upper data) (str_upper text))
       else inr tt) ∧
      script_cache str_upper w None = Some (build_map str_upper data)) ∧
  (∀ msg,
      coins_list w = inl msg →
      script str_upper w None text clicked =
      ([ StSetPageConfig;
         StTitle "🧠 Altcoin AI Price Predictor (1–24 Hour Forecasts)";
         StMarkdown "🔮 Enter altcoin symbol to get hourly price forecasts in beautiful tables.";
         StTextInput "💡 Enter Altcoin Symbol (e.g., BTC, PEPE)";
         ReqCoinsList ],
       inl (Exception msg)) ∧
      errors (trace (script str_upper w None text clicked)) = [] ∧
      script_cache str_upper w None = None) ∧
  (∀ coin_map,
      (ReqCoinsList ∉ trace (script str_upper w (Some coin_map) text clicked)) ∧
      script_cache str_upper w (Some coin_map) = Some coin_map).
Proof.
  assert (∀ data, coins_list w = inr data →
    script str_upper w None text clicked =
      ([ StSetPageConfig;
         StTitle "🧠 Altcoin AI Price Predictor (1–24 Hour Forecasts)";
         StMarkdown "🔮 Enter altcoin symbol to get hourly price forecasts in beautiful tables.";
         StTextInput "💡 Enter Altcoin Symbol (e.g., BTC, PEPE)";
         ReqCoinsList;
         StButton "🔍 Predict Price Movement" ] ++
       (if clicked
        then trace (on_predict w (build_map str_upper data) (str_upper text))
        else []),
       if clicked
       then outcome (on_predict w (build_map str_upper data) (str_upper text))
       else inr tt)) as Hok.
  { intros data Hw. unfold script, st_cache_data.
    rewrite (load_coin_mapping_ok _ _ _ Hw). unfold_M. cbv beta iota zeta.
    destruct clicked; [|done].
    by destruct (on_predict w (build_map str_upper data) (str_upper text)). }
  assert (∀ msg, coins_list w = inl msg →
    script str_upper w None text clicked =
      ([ StSetPageConfig;
         StTitle "🧠 Altcoin AI Price Predictor (1–24 Hour Forecasts)";
         StMarkdown "🔮 Enter altcoin symbol to get hourly price forecasts in beautiful tables.";
         StTextInput "💡 Enter Altcoin Symbol (e.g., BTC, PEPE)";
         ReqCoinsList ],
       inl (Exception msg))) as Hfail.
  { intros msg Hw. unfold script, st_cache_data, load_coin_mapping.
    unfold_M. by rewrite Hw. }
  split; [|split; [|split]].
  - destruct (coins_list w) as [msg|data] eqn:Hw.
    + exists []. by rewrite (Hfail msg).
    + eexists. rewrite (Hok data) by done. cbn [trace fst]. reflexivity.
  - intros data Hw. split; [by apply Hok|].
    unfold script_cache, cache_after. by rewrite (load_coin_mapping_ok _ _ _ Hw).
  - intros msg Hw. rewrite (Hfail msg Hw). split; [done|]. split; [done|].
    unfold script_cache, cache_after, load_coin_mapping. unfold_M. by rewrite Hw.
  - intros coin_map. split; [|done].
    unfold script, st_cache_data. unfold_M. cbv beta iota zeta.
    destruct clicked; cbn [app fst].
    + pose proof (no_listing_request_in_prediction w coin_map (str_upper text)) as Hno.
      destruct (on_predict w coin_map (str_upper text)) as [t r].
      cbn [trace fst app] in *. intros Hin.
      repeat (apply elem_of_cons in Hin as [Hin|Hin]; [discriminate|]).
      done.
    + intros Hin.
      repeat (apply elem_of_cons in Hin as [Hin|Hin]; [discriminate|]).
      by apply elem_of_nil in Hin.
Qed.

End PageRun.

(** ** Outcomes of a prediction *)

Section Outcomes.

Context {R : Type} `{PyFloat R}.

(** A list strictly increasing under one key is strictly increasing under
    any key that grows with it on the members of the list. *)
Lemma sorted_fmap_increasing {A} (f g : A → Z) (l : list A) :
  (∀ a b, a ∈ l → b ∈ l → f a < f b → g a < g b) →
  StronglySorted Z.lt (f <$> l) → StronglySorted Z.lt (g <$> l).
Proof.
  induction l as [|a l IH]; intros Hmono Hs; [constructor|].
  cbn [fmap list_fmap] in *. apply StronglySorted_inv in Hs as [Hs Hall].
  constructor.
  - apply IH; [|done]. intros x y Hx Hy. apply Hmono; by right.
  - apply Forall_fmap, Forall_forall. intros b Hb.
    change (list_fmap A Z f l) with (f <$> l) in Hall.
    rewrite Forall_fmap, Forall_forall in Hall.
    apply Hmono; [by left|by right|]. by apply Hall.
Qed.

Lemma fetch_chart_raises (w : World R) (coin_map : gmap string string)
    (coin_input id msg : string) :
  yf_download w (coin_input +:+ "-USD") = inr [] →
  coin_map !! coin_input = Some id →
  market_chart w id (clock w - 90 * 24 * 60 * 60) (clock w) = inl msg →
  fetch_market_data w coin_map coin_input =
  ([ StInfo "📥 Fetching market data..."; ReqYahoo (coin_input +:+ "-USD");
     StWarning "⚠ Yahoo Finance failed. Trying CoinGecko...";
     ReqMarketChart id (clock w - 90 * 24 * 60 * 60) (clock w) ],
   inl (Exception msg)).
Proof.
  intros Hy Hm Hc. unfold fetch_market_data. unfold_M. by rewrite Hy, Hm, Hc.
Qed.

Lemma fetch_chart_returns (w : World R) (coin_map : gmap string string)
    (coin_input id : string) (prices : list (Stamp * R)) (df : list (Point R)) :
  yf_download w (coin_input +:+ "-USD") = inr [] →
  coin_map !! coin_input = Some id →
  market_chart w id (clock w - 90 * 24 * 60 * 60) (clock w) = inr prices →
  chart_series w prices = inr df →
  fetch_market_data w coin_map coin_input =
  ([ StInfo "📥 Fetching market data..."; ReqYahoo (coin_input +:+ "-USD");
     StWarning "⚠ Yahoo Finance failed. Trying CoinGecko...";
     ReqMarketChart id (clock w - 90 * 24 * 60 * 60) (clock w);
     StSuccess "✅ Data loaded from CoinGecko." ],
   inr df).
Proof.
  intros Hy Hm Hc Hdf. unfold fetch_market_data. unfold_M.
  by rewrite Hy, Hm, Hc, Hdf.
Qed.

(** The conversion of the stamps raises nothing but [OutOfBoundsDatetime]. *)
Lemma chart_series_raises_Exception (w : World R) (prices : list (Stamp * R))
    (e : exception) :
  chart_series w prices = inl e → ∃ msg, e = Exception msg.
Proof.
  induction prices as [|[ms price] prices IH]; [done|].
  cbn [chart_series]. unfold to_datetime_ms.
  destruct (_ && _).
  - destruct (chart_series w prices) as [e'|df]; [|done].
    intros [= <-]. by apply IH.
  - intros [= <-]. by eexists.
Qed.

Lemma fetch_chart_out_of_bounds (w : World R) (coin_map : gmap string string)
    (coin_input id msg : string) (prices : list (Stamp * R)) :
  yf_download w (coin_input +:+ "-USD") = inr [] →
  coin_map !! coin_input = Some id →
  market_chart w id (clock w - 90 * 24 * 60 * 60) (clock w) = inr prices →
  chart_series w prices = inl (Exception msg) →
  fetch_market_data w coin_map coin_input =
  ([ StInfo "📥 Fetching market data..."; ReqYahoo (coin_input +:+ "-USD");
     StWarning "⚠ Yahoo Finance failed. Trying CoinGecko...";
     ReqMarketChart id (clock w - 90 * 24 * 60 * 60) (clock w) ],
   inl (Exception msg)).
Proof.
  intros Hy Hm Hc Hdf. unfold fetch_market_data. unfold_M.
  by rewrite Hy, Hm, Hc, Hdf.
Qed.

Lemma render_forecast_short (w : World R) (coin_input : string) (df : list (Point R)) :
  (length df < 2)%nat →
  render_forecast w coin_input df =
  ([ StInfo "🔮 Predicting future prices..." ],
   inl (Exception "Dataframe has less than 2 non-NaN rows.")).
Proof.
  intros Hlen. unfold render_forecast, forecast_future, prophet_fit.
  destruct (Nat.ltb_spec (length df) 2); [|lia]. by unfold_M.
Qed.

Lemma errors_horizon_events (slots : list Z) (future_data : list (ForecastRow R))
    (current_price : R) :
  errors (slots ≫= horizon_events future_data current_price) = [].
Proof.
  induction slots as [|hour rest IH]; [done|].
  rewrite bind_cons. unfold errors in *. rewrite omap_app, IH.
  unfold horizon_events.
  by destruct (horizon_table future_data current_price hour).
Qed.

End Outcomes.

(** Case analysis on the fetch stage of a prediction: the download raises,
    the chart raises, a stamp of the chart is out of bounds, the chart gives
    a series, the symbol is unknown, or the primary frame is non-empty. *)
Ltac fetch_cases w m ci :=
  destruct (yf_download w (ci +:+ "-USD")) as [msg|[|c cs]] eqn:Hy;
  [ rewrite ?(fetch_download_raises w m ci msg Hy)
  | destruct (m !! ci) as [id|] eqn:Hm;
    [ destruct (market_chart w id (clock w - 90 * 24 * 60 * 60) (clock w))
        as [msg|prices] eqn:Hc;
      [ rewrite ?(fetch_chart_raises w m ci id msg Hy Hm Hc)
      | destruct (chart_series w prices) as [e|df] eqn:Hdf;
        [ destruct (chart_series_raises_Exception w prices e Hdf) as [msg ->];
          rewrite ?(fetch_chart_out_of_bounds w m ci id msg prices Hy Hm Hc Hdf)
        | rewrite ?(fetch_chart_returns w m ci id prices df Hy Hm Hc Hdf) ] ]
    | rewrite ?(fetch_not_found w m ci Hy Hm) ]
  | rewrite ?(fetch_primary w m ci c cs Hy) ].

Section Predictions.

Context {R : Type} `{PyFloat R}.

(** X1.  A prediction never lets an [Exception] escape: it either completes
    or is ended by [st.stop()], and the latter happens exactly when the
    primary frame is empty and the symbol is not in the map. *)
Theorem prediction_completes_or_stops (w : World R) (coin_map : gmap string string)
    (coin_input : string) :
  (outcome (on_predict w coin_map coin_input) = inr tt ∨
   outcome (on_predict w coin_map coin_input) = inl StopException) ∧
  (outcome (on_predict w coin_map coin_input) = inl StopException ↔
   yf_download w (coin_input +:+ "-USD") = inr [] ∧ coin_map !! coin_input = None).
Proof.
  rewrite on_predict_run, pipeline_run.
  fetch_cases w coin_map coin_input; cbn [outcome snd].
  - split; [by left|]. split; [done|]. by intros [? _].
  - split; [by left|]. split; [done|]. by intros [_ ?].
  - split; [by left|]. split; [done|]. by intros [_ ?].
  - destruct (render_forecast_run w coin_input df)
      as [[msg' ->]|(fd & cp & ->)]; cbn [outcome snd].
    all: split; [by left|]; split; [done|]; by intros [_ ?].
  - split; [by right|]. done.
  - destruct (render_forecast_run w coin_input (normalize (c :: cs)))
      as [[msg' ->]|(fd & cp & ->)]; cbn [outcome snd].
    all: split; [by left|]; split; [done|]; by intros [? _].
Qed.

(** X2.  A prediction shows at most one error message, either the "Coin not
    found" one or the generic one carrying the exception text, and a run
    that shows an error shows no table and offers no download. *)
Theorem prediction_error_excludes_tables (w : World R)
    (coin_map : gmap string string) (coin_input : string) :
  let t := trace (on_predict w coin_map coin_input) in
  (errors t = [] ∨
   errors t = [ "❌ Coin not found on CoinGecko." ] ∨
   ∃ msg, errors t = [ "❌ Error occurred: " +:+ msg ]) ∧
  (errors t ≠ [] → dataframes t = [] ∧ downloads t = []).
Proof.
  intros t. subst t. rewrite on_predict_run, pipeline_run.
  assert (∀ (pre : list (event R)) df,
    errors pre = [] → dataframes pre = [] → downloads pre = [] →
    let t := trace (match (pre ++ trace (render_forecast w coin_input df),
                           outcome (render_forecast w coin_input df)) with
                    | (t, inl (Exception msg)) =>
                        (t ++ [StError ("❌ Error occurred: " +:+ msg)], inr tt)
                    | (t, r) => (t, r)
                    end) in
    (errors t = [] ∨ errors t = [ "❌ Coin not found on CoinGecko." ] ∨
     ∃ msg, errors t = [ "❌ Error occurred: " +:+ msg ]) ∧
    (errors t ≠ [] → dataframes t = [] ∧ downloads t = [])) as Hrender.
  { intros pre df He Hd Hl. cbv zeta.
    destruct (render_forecast_run w coin_input df)
      as [[msg ->]|(fd & cp & ->)]; cbn [trace outcome fst snd].
    - unfold errors, dataframes, downloads in *.
      rewrite !omap_app, He, Hd, Hl. cbn. split; [|done].
      right. right. by exists msg.
    - assert (errors (pre ++ StInfo "🔮 Predicting future prices..."
                :: StHeader ("📈 " +:+ coin_input +:+ " Forecast Tables (1–24 Hours)")
                :: (time_slots ≫= horizon_events fd cp) ++
                   trace (export coin_input (omap (horizon_table fd cp) time_slots)))
              = []) as ->; [|split; [by left|done]].
      rewrite export_run. cbn [trace fst].
      pose proof (errors_horizon_events time_slots fd cp) as Hev.
      unfold errors in *. rewrite omap_app, !omap_cons, omap_app, He, Hev.
      by destruct (omap (horizon_table fd cp) time_slots). }
  fetch_cases w coin_map coin_input.
  - cbn. split; [|done]. right. right. by exists msg.
  - cbn. split; [|done]. right. right. by exists msg.
  - cbn. split; [|done]. right. right. by exists msg.
  - by apply Hrender.
  - cbn. split; [|done]. right. by left.
  - by apply Hrender.
Qed.

(** X3.  A prediction sends the Yahoo request for [{coin_input}-USD] first
    and at most one more request: the market chart of the identifier the
    map gives for [coin_input], over the 7,776,000 seconds (90 days) up to
    the clock, and only after an empty primary frame. *)
Theorem prediction_requests (w : World R) (coin_map : gmap string string)
    (coin_input : string) :
  (requests (trace (on_predict w coin_map coin_input)) =
     [ ReqYahoo (coin_input +:+ "-USD") ] ∧
   ¬ (yf_download w (coin_input +:+ "-USD") = inr [] ∧
      is_Some (coin_map !! coin_input)))
  ∨
  (∃ id,
     yf_download w (coin_input +:+ "-USD") = inr [] ∧
     coin_map !! coin_input = Some id ∧
     requests (trace (on_predict w coin_map coin_input)) =
       [ ReqYahoo (coin_input +:+ "-USD");
         ReqMarketChart id (clock w - 7776000) (clock w) ]).
Proof.
  rewrite on_predict_requests.
  fetch_cases w coin_map coin_input.
  - left. split; [done|]. by intros [? _].
  - right. by exists id.
  - right. by exists id.
  - right. by exists id.
  - left. split; [done|]. by intros [_ [? ?]].
  - left. split; [done|]. by intros [? _].
Qed.

Lemma chart_series_in_bounds (w : World R) (prices : list (Stamp * R)) :
  Forall (λ p, - int64_max ≤ stamp_ms p.1 * 1000000 ≤ int64_max) prices →
  chart_series w prices =
  inr ((λ p, {| ds := stamp_ms p.1 * 1000000; y := p.2 |}) <$> prices).
Proof.
  induction 1 as [|[ms price] prices Hin _ IH]; [done|].
  cbn [chart_series fmap list_fmap fst snd] in *. unfold to_datetime_ms.
  change ns_per_ms with 1000000.
  destruct (Z.leb_spec (- int64_max) (stamp_ms ms * 1000000)); [|lia].
  destruct (Z.leb_spec (stamp_ms ms * 1000000) int64_max); [|lia].
  cbn [andb]. by rewrite IH.
Qed.

Lemma chart_series_out_of_bounds (w : World R) (prices : list (Stamp * R)) :
  Exists (λ p, ¬ (- int64_max ≤ stamp_ms p.1 * 1000000 ≤ int64_max)) prices →
  ∃ msg, chart_series w prices = inl (Exception msg).
Proof.
  induction 1 as [[ms price] prices Hout|[ms price] prices _ [msg IH]].
  - cbn [chart_series fst] in *. unfold to_datetime_ms.
    change ns_per_ms with 1000000.
    destruct (Z.leb_spec (- int64_max) (stamp_ms ms * 1000000)),
      (Z.leb_spec (stamp_ms ms * 1000000) int64_max);
      cbn [andb]; [lia| | |]; by eexists.
  - cbn [chart_series]. rewrite IH.
    destruct (to_datetime_ms (overflow_text w) ms) as [e|t] eqn:Ht; [|by eexists].
    unfold to_datetime_ms in Ht. destruct (_ && _); [done|].
    injection Ht as <-. by eexists.
Qed.

(** X4.  On the fallback path, after the chart request is answered: if every
    stamp's nanoseconds fit a timestamp, the fetch returns the series of the
    [prices] array in the same order and length, each millisecond stamp
    times 1,000,000 and each price kept, and strictly increasing stamps
    stay strictly increasing; if some stamp's nanoseconds do not fit, the
    conversion raises, no success note is shown and the prediction ends
    with the generic error message. *)
Theorem fallback_series (w : World R) (coin_map : gmap string string)
    (coin_input id : string) (prices : list (Stamp * R)) :
  yf_download w (coin_input +:+ "-USD") = inr [] →
  coin_map !! coin_input = Some id →
  market_chart w id (clock w - 90 * 24 * 60 * 60) (clock w) = inr prices →
  (Forall (λ p, - int64_max ≤ stamp_ms p.1 * 1000000 ≤ int64_max) prices →
   ∃ df,
     outcome (fetch_market_data w coin_map coin_input) = inr df ∧
     length df = length prices ∧
     (∀ i ms price, prices !! i = Some (ms, price) →
                    df !! i = Some {| ds := stamp_ms ms * 1000000; y := price |}) ∧
     (StronglySorted Z.lt ((λ p, stamp_ms p.1) <$> prices) →
      StronglySorted Z.lt (ds <$> df))) ∧
  (Exists (λ p, ¬ (- int64_max ≤ stamp_ms p.1 * 1000000 ≤ int64_max)) prices →
   ∃ msg,
     on_predict w coin_map coin_input =
     ([ StInfo "📥 Fetching market data..."; ReqYahoo (coin_input +:+ "-USD");
        StWarning "⚠ Yahoo Finance failed. Trying CoinGecko...";
        ReqMarketChart id (clock w - 90 * 24 * 60 * 60) (clock w);
        StError ("❌ Error occurred: " +:+ msg) ],
      inr tt)).
Proof.
  intros Hy Hm Hc. split.
  - intros Hin.
    exists ((λ p, {| ds := stamp_ms p.1 * 1000000; y := p.2 |}) <$> prices).
    rewrite (fetch_chart_returns _ _ _ _ _ _ Hy Hm Hc
               (chart_series_in_bounds w prices Hin)).
    split; [done|]. split; [apply length_fmap|]. split.
    + intros i ms price Hi. by rewrite list_lookup_fmap, Hi.
    + intros Hs. rewrite <-list_fmap_compose.
      apply (sorted_fmap_increasing (λ p, stamp_ms p.1)); [|done].
      intros a b _ _. cbn. lia.
  - intros Hout.
    destruct (chart_series_out_of_bounds w prices Hout) as [msg Hraise].
    exists msg.
    by rewrite on_predict_run, pipeline_run,
      (fetch_chart_out_of_bounds _ _ _ _ _ _ Hy Hm Hc Hraise).
Qed.

(** X5.  When the fetched series has fewer than two points (in particular
    when both sources answer with nothing) the prediction ends with the
    generic error message after the progress note: no header, no table, no
    warning about horizons, no download. *)
Theorem short_series_is_a_generic_error (w : World R)
    (coin_map : gmap string string) (coin_input : string) (df : list (Point R)) :
  outcome (fetch_market_data w coin_map coin_input) = inr df →
  (length df < 2)%nat →
  ∃ msg,
    on_predict w coin_map coin_input =
    (trace (fetch_market_data w coin_map coin_input) ++
     [ StInfo "🔮 Predicting future prices...";
       StError ("❌ Error occurred: " +:+ msg) ],
     inr tt).
Proof.
  intros Hfetch Hlen. exists "Dataframe has less than 2 non-NaN rows.".
  rewrite on_predict_run, pipeline_run.
  destruct (fetch_market_data w coin_map coin_input) as [t [e|df']];
    cbn [outcome snd trace fst] in *; [done|].
  injection Hfetch as ->. rewrite (render_forecast_short _ _ _ Hlen).
  cbn [trace outcome fst snd]. by rewrite <-app_assoc.
Qed.

(** X6.  A request that raises is reported once, with the exception text,
    and the run completes: for the Yahoo download right after its request,
    for the market chart right after the chart request. *)
Theorem failed_request_is_reported (w : World R) (coin_map : gmap string string)
    (coin_input : string) :
  (∀ msg,
      yf_download w (coin_input +:+ "-USD") = inl msg →
      on_predict w coin_map coin_input =
      ([ StInfo "📥 Fetching market data..."; ReqYahoo (coin_input +:+ "-USD");
         StError ("❌ Error occurred: " +:+ msg) ],
       inr tt)) ∧
  (∀ id msg,
      yf_download w (coin_input +:+ "-USD") = inr [] →
      coin_map !! coin_input = Some id →
      market_chart w id (clock w - 90 * 24 * 60 * 60) (clock w) = inl msg →
      on_predict w coin_map coin_input =
      ([ StInfo "📥 Fetching market data..."; ReqYahoo (coin_input +:+ "-USD");
         StWarning "⚠ Yahoo Finance failed. Trying CoinGecko...";
         ReqMarketChart id (clock w - 90 * 24 * 60 * 60) (clock w);
         StError ("❌ Error occurred: " +:+ msg) ],
       inr tt)).
Proof.
  split.
  - intros msg Hy.
    by rewrite on_predict_run, pipeline_run, (fetch_download_raises _ _ _ _ Hy).
  - intros id msg Hy Hm Hc.
    by rewrite on_predict_run, pipeline_run, (fetch_chart_raises _ _ _ _ _ Hy Hm Hc).
Qed.

End Predictions.

(** ** A prediction that goes through *)

Section Rendering.

Context {R : Type} `{PyFloat R}.

Lemma omap_all_Some {A B} (f : A → option B) (g : A → B) (l : list A) :
  Forall (λ x, f x = Some (g x)) l → omap f l = g <$> l.
Proof.
  induction 1 as [|x l Hx _ IH]; [done|].
  rewrite omap_cons, Hx, IH. done.
Qed.

Lemma bind_ext_Forall {A B} (f g : A → list B) (l : list A) :
  Forall (λ x, f x = g x) l → l ≫= f = l ≫= g.
Proof.
  induction 1 as [|x l Hx _ IH]; [done|]. by rewrite !bind_cons, Hx, IH.
Qed.

Lemma predict_row_ds (w : World R) (df : list (Point R)) (t : Timestamp) :
  f_ds (predict_row w df t) = t.
Proof. unfold predict_row. by destruct (prophet_predict w df t) as [[p lo] hi]. Qed.

Lemma filter_predict (w : World R) (df : list (Point R)) (now : Z)
    (future : list Timestamp) :
  filter (λ r, now < f_ds r) (predict w df future) =
  predict_row w df <$> filter (λ t, now < t) future.
Proof.
  change (predict w df future) with (predict_row w df <$> future).
  induction future as [|t future IH]; [done|].
  cbn [fmap list_fmap]. rewrite !filter_cons, predict_row_ds.
  change (list_fmap _ _ ?f future) with (f <$> future). rewrite IH.
  by destruct (decide (now < t)).
Qed.

(** The forecast stage on a valid series, row by row. *)
Lemma forecast_future_rows (w : World R) (df : list (Point R)) (now : Timestamp) :
  (2 ≤ length df)%nat →
  StronglySorted Z.lt (ds <$> df) →
  last (ds <$> df) = Some now →
  forecast_future w df =
  ([], inr ((λ k : nat, predict_row w df (now + Z.of_nat k * ns_per_hour))
              <$> seq 1 24)).
Proof.
  intros Hlen Hsorted Hlast. unfold forecast_future. unfold_M.
  unfold prophet_fit. destruct (Nat.ltb_spec (length df) 2); [lia|].
  change (map ds df) with (ds <$> df). rewrite iloc_last, Hlast.
  rewrite filter_predict. unfold make_future_dataframe.
  change (map ds df) with (ds <$> df).
  rewrite (last_date_sorted _ _ Hsorted Hlast), filter_app.
  rewrite filter_none, filter_all.
  - cbn [app]. by rewrite <-list_fmap_compose.
  - apply Forall_forall. intros t Ht.
    apply list_elem_of_In, in_map_iff in Ht as (k & <- & Hk).
    apply in_seq in Hk. unfold ns_per_hour, ns_per_minute. lia.
  - eapply Forall_impl; [apply (sorted_below_last _ _ Hsorted Hlast)|].
    cbn. lia.
Qed.

Lemma horizon_table_of_forecast (w : World R) (df : list (Point R))
    (now : Timestamp) (current_price : R) (hour : Z) :
  1 ≤ hour ≤ 24 →
  horizon_table
    ((λ k : nat, predict_row w df (now + Z.of_nat k * ns_per_hour)) <$> seq 1 24)
    current_price hour =
  Some (horizon_table_at w df now current_price hour).
Proof.
  intros Hh. unfold horizon_table, horizon_table_at.
  rewrite iloc_nonneg by lia.
  rewrite list_lookup_fmap, lookup_seq_lt by lia. cbn [fmap option_fmap option_map].
  by replace (Z.of_nat (1 + Z.to_nat (hour - 1))) with hour by lia.
Qed.

(** After a valid series the run shows the note, the header, heading and
    table for each of the thirteen horizons, and the download button. *)
Lemma render_forecast_valid (w : World R) (coin_input : string) (df : list (Point R))
    (now : Timestamp) (last_y : R) :
  (2 ≤ length df)%nat →
  StronglySorted Z.lt (ds <$> df) →
  last (ds <$> df) = Some now →
  last (y <$> df) = Some last_y →
  render_forecast w coin_input df =
  (StInfo "🔮 Predicting future prices..." ::
   StHeader ("📈 " +:+ coin_input +:+ " Forecast Tables (1–24 Hours)") ::
   (time_slots ≫= shown_for (horizon_table_at w df now (round last_y 5))) ++
   [ StDownloadButton "📥 Download All Forecasts (Excel)"
       (convert_excel
          (pd_concat (horizon_table_at w df now (round last_y 5) <$> time_slots)))
       (coin_input +:+ "_forecast.xlsx") xlsx_mime ],
   inr tt).
Proof.
  intros Hlen Hsorted Hnow Hy.
  unfold render_forecast, current_price_of.
  rewrite (forecast_future_rows _ _ _ Hlen Hsorted Hnow).
  change (map y df) with (y <$> df). rewrite iloc_last, Hy.
  unfold_M. rewrite horizon_loop_run, export_run. cbn [app fst snd].
  assert (Forall (λ h,
            horizon_table
              ((λ k : nat, predict_row w df (now + Z.of_nat k * ns_per_hour))
                 <$> seq 1 24) (round last_y 5) h =
            Some (horizon_table_at w df now (round last_y 5) h)) time_slots) as Hall.
  { eapply Forall_impl; [apply time_slots_bounds|].
    intros h Hh. by apply horizon_table_of_forecast. }
  rewrite (omap_all_Some _ _ _ Hall).
  rewrite (bind_ext_Forall _ (shown_for (horizon_table_at w df now (round last_y 5)))).
  - rewrite time_slots_eq at 3. done.
  - eapply Forall_impl; [apply Hall|]. intros h Hh.
    unfold horizon_events. by rewrite Hh.
Qed.

(** X7.  Whatever the future sequence, the loop completes and accounts for
    every horizon exactly once: the tables it shows are the ones it appends
    after those it was given, and their number plus the number of "Not
    enough data" warnings is the number of horizons, 13 for the script's
    slots. *)
Theorem every_horizon_table_or_warning (slots : list Z)
    (future_data : list (ForecastRow R)) (current_price : R)
    (all_tables : list (DataFrame R)) :
  let run := horizon_loop slots future_data current_price all_tables in
  ∃ built,
    outcome run = inr (all_tables ++ built) ∧
    dataframes (trace run) = built ∧
    (length built + length (warnings (trace run)) = length slots)%nat ∧
    (slots = time_slots →
     (length built + length (warnings (trace run)) = 13)%nat).
Proof.
  intros run. subst run.
  exists (omap (horizon_table future_data current_price) slots).
  rewrite horizon_loop_run. cbn [outcome trace fst snd].
  split; [done|]. split; [apply dataframes_horizon_events|].
  assert (length (omap (horizon_table future_data current_price) slots) +
          length (warnings (slots ≫= horizon_events future_data current_price)) =
          length slots)%nat as Hcount.
  { induction slots as [|h slots IH]; [done|].
    rewrite omap_cons, bind_cons. unfold warnings in *.
    rewrite omap_app, !length_app. unfold horizon_events at 1.
    destruct (horizon_table future_data current_price h); cbn; lia. }
  split; [done|]. intros ->. by rewrite Hcount.
Qed.

Lemma tables_share_price (slots : list Z) (future_data : list (ForecastRow R))
    (current_price : R) :
  ∃ hrs : list HorizonRow,
    omap (horizon_table future_data current_price) slots = table_of <$> hrs ∧
    Forall (λ hr, h_current_price hr = current_price) hrs.
Proof.
  induction slots as [|h slots (hrs & IHt & IHp)]; [by exists []|].
  rewrite omap_cons. unfold horizon_table at 1.
  destruct (iloc future_data (h - 1)) as [e|row].
  - by exists hrs.
  - exists (horizon_values h row current_price :: hrs).
    split; [cbn; by rewrite IHt|]. by constructor.
Qed.

(** X8.  In every prediction all tables carry one and the same current
    price, every table line has as many cells as there are column labels,
    and so has every line of every sheet offered for download, with that
    same price in its third cell. *)
Theorem tables_are_uniform (w : World R) (coin_map : gmap string string)
    (coin_input : string) :
  let t := trace (on_predict w coin_map coin_input) in
  ∃ current_price,
    Forall (λ d, ∃ hr, d = table_of hr ∧ h_current_price hr = current_price)
      (dataframes t) ∧
    Forall (λ d, Forall (λ line, length line = length (columns d)) (rows d))
      (dataframes t) ∧
    (∀ label wb file mime name sheet,
        (label, wb, file, mime) ∈ downloads t →
        (name, sheet) ∈ sheets wb →
        Forall (λ line, length line = length (sheet_header sheet) ∧
                        line !! 2%nat = Some (CFloat current_price))
          (sheet_body sheet)).
Proof.
  intros t. subst t.
  destruct (on_predict_tables w coin_map coin_input)
    as (slots & future_data & current_price & _ & -> & ->).
  destruct (tables_share_price slots future_data current_price) as (hrs & -> & Hp).
  exists current_price. split; [|split].
  - apply Forall_fmap. eapply Forall_impl; [apply Hp|]. intros hr Hhr. by exists hr.
  - apply Forall_fmap, Forall_true. intros hr. by repeat constructor.
  - intros label wb file mime name sheet Hdl Hsheet.
    rewrite export_run in Hdl. destruct hrs as [|hr hrs];
      [by apply elem_of_nil in Hdl|].
    cbn [fmap list_fmap trace fst] in Hdl. rewrite (pd_concat_tables hr hrs) in Hdl.
    apply list_elem_of_singleton in Hdl. injection Hdl as _ -> _ _.
    apply list_elem_of_singleton in Hsheet. injection Hsheet as _ ->.
    cbn [sheet_body sheet_header rows columns].
    change (row_cells hr :: (row_cells <$> hrs)) with (row_cells <$> hr :: hrs).
    apply Forall_fmap. eapply Forall_impl; [apply Hp|].
    intros hr' Hhr'. cbn. by rewrite Hhr'.
Qed.

(** X9.  When the fetch stage returns a series of at least two points with
    strictly increasing timestamps, every price a finite number, and every
    timestamp within the timestamp bounds with room for the 24 hours that
    follow, the prediction completes and shows, after the events of the
    fetch, the progress note, the header, then for each of the thirteen
    horizons its heading and its table, built from the forecast row stamped
    that many hours after the last point and from the last price rounded to
    5 places, and finally one download button over those thirteen tables;
    it shows no warning about a horizon and no error. *)
Theorem valid_series_shows_every_horizon (w : World R)
    (coin_map : gmap string string) (coin_input : string) (df : list (Point R)) :
  outcome (fetch_market_data w coin_map coin_input) = inr df →
  (2 ≤ length df)%nat →
  StronglySorted Z.lt (ds <$> df) →
  Forall (λ p, finite_price (y p)) df →
  Forall (λ p, - int64_max ≤ ds p ∧ ds p + 24 * ns_per_hour ≤ int64_max) df →
  ∃ now last_y,
    last (ds <$> df) = Some now ∧
    last (y <$> df) = Some last_y ∧
    let table := horizon_table_at w df now (round last_y 5) in
    on_predict w coin_map coin_input =
    (trace (fetch_market_data w coin_map coin_input) ++
     StInfo "🔮 Predicting future prices..." ::
     StHeader ("📈 " +:+ coin_input +:+ " Forecast Tables (1–24 Hours)") ::
     (time_slots ≫= shown_for table) ++
     [ StDownloadButton "📥 Download All Forecasts (Excel)"
         (convert_excel (pd_concat (table <$> time_slots)))
         (coin_input +:+ "_forecast.xlsx") xlsx_mime ],
     inr tt) ∧
    dataframes (trace (on_predict w coin_map coin_input)) = table <$> time_slots ∧
    length (dataframes (trace (on_predict w coin_map coin_input))) = 13%nat ∧
    errors (trace (on_predict w coin_map coin_input)) = [].
Proof.
  intros Hfetch Hlen Hsorted _ _.
  destruct (last (ds <$> df)) as [now|] eqn:Hnow; cycle 1.
  { apply last_None, fmap_nil_inv in Hnow. subst df. cbn in Hlen. lia. }
  destruct (last (y <$> df)) as [last_y|] eqn:Hy; cycle 1.
  { apply last_None, fmap_nil_inv in Hy. subst df. cbn in Hlen. lia. }
  exists now, last_y. split; [done|]. split; [done|]. intros table. subst table.
  assert (on_predict w coin_map coin_input =
    (trace (fetch_market_data w coin_map coin_input) ++
     StInfo "🔮 Predicting future prices..." ::
     StHeader ("📈 " +:+ coin_input +:+ " Forecast Tables (1–24 Hours)") ::
     (time_slots ≫= shown_for (horizon_table_at w df now (round last_y 5))) ++
     [ StDownloadButton "📥 Download All Forecasts (Excel)"
         (convert_excel
            (pd_concat (horizon_table_at w df now (round last_y 5) <$> time_slots)))
         (coin_input +:+ "_forecast.xlsx") xlsx_mime ],
     inr tt)) as Hrun.
  { rewrite on_predict_run, pipeline_run.
    destruct (fetch_market_data w coin_map coin_input) as [t [e|df']];
      cbn [outcome snd trace fst] in *; [done|].
    injection Hfetch as ->.
    by rewrite (render_forecast_valid _ _ _ _ _ Hlen Hsorted Hnow Hy). }
  split; [done|].
  destruct (fetch_shows_nothing w coin_map coin_input) as [Hd _].
  assert (errors (trace (fetch_market_data w coin_map coin_input)) = []) as He.
  { clear -Hfetch. unfold fetch_market_data in *. unfold_M.
    destruct (yf_download w _) as [msg|[|c cs]]; [done| |done].
    destruct (coin_map !! coin_input) as [id|]; [|done].
    destruct (market_chart w id _ _) as [msg|prices]; [done|].
    by destruct (chart_series w prices). }
  rewrite Hrun. cbn [trace fst].
  assert (dataframes
            (time_slots ≫= shown_for (horizon_table_at w df now (round last_y 5))) =
          horizon_table_at w df now (round last_y 5) <$> time_slots) as Hshown.
  { generalize time_slots. intros l. induction l as [|h l IH]; [done|].
    rewrite bind_cons. unfold dataframes in *. rewrite omap_app, IH. done. }
  assert (errors
            (time_slots ≫= shown_for (horizon_table_at w df now (round last_y 5))) =
          []) as Hnoerr.
  { generalize time_slots. intros l. induction l as [|h l IH]; [done|].
    rewrite bind_cons. unfold errors in *. rewrite omap_app, IH. done. }
  unfold dataframes, errors in *.
  rewrite !omap_app, !omap_cons, !omap_app, Hd, He, Hshown, Hnoerr.
  cbn [option_list app omap list_omap]. rewrite app_nil_r.
  split; [done|]. split; [|done]. by rewrite time_slots_eq.
Qed.

End Rendering.

(** ** More on the symbol map, the cache and the primary series *)

Section MapAndCache.

Context {R : Type} `{PyFloat R}.
Variable str_upper : string → string.

Lemma build_map_snoc (data : list Coin) (c : Coin) :
  build_map str_upper (data ++ [c]) =
  <[str_upper (coin_symbol c) := coin_id c]> (build_map str_upper data).
Proof. unfold build_map. by rewrite foldl_snoc. Qed.

(** X10.  The keys of the symbol map are exactly the upper-cased symbols of
    the listing, every identifier it holds is that of a listed coin filed
    under its upper-cased symbol, and it has at most one entry per listed
    coin. *)
Theorem symbol_map_keys_and_values (data : list Coin) :
  dom (build_map str_upper data) =
    list_to_set ((λ c, str_upper (coin_symbol c)) <$> data) ∧
  (∀ s id, build_map str_upper data !! s = Some id →
           ∃ c, c ∈ data ∧ str_upper (coin_symbol c) = s ∧ coin_id c = id) ∧
  (size (build_map str_upper data) ≤ length data)%nat.
Proof.
  split; [|split].
  - induction data as [|c data IH] using rev_ind.
    + unfold build_map. cbn. apply dom_empty_L.
    + rewrite build_map_snoc, dom_insert_L, IH, fmap_app, list_to_set_app_L.
      cbn [fmap list_fmap list_to_set foldr].
      by rewrite (right_id_L ∅ (∪)), (comm_L (∪)).
  - intros s id Hs. rewrite build_map_lookup in Hs.
    destruct (last (filter _ data)) as [c|] eqn:Hlast; [|done].
    injection Hs as <-. apply last_Some_elem_of, list_elem_of_filter in Hlast.
    destruct Hlast as [Hkey Hin]. by exists c.
  - induction data as [|c data IH] using rev_ind.
    + unfold build_map. cbn. by rewrite map_size_empty.
    + rewrite build_map_snoc, map_size_insert, length_app. cbn [length].
      destruct (build_map str_upper data !! _); cbn; lia.
Qed.

(** X11.  Building the map from two listings one after the other is the map
    of the second laid over the map of the first: the second wins on every
    key it has. *)
Theorem symbol_map_of_concatenation (first second : list Coin) :
  build_map str_upper (first ++ second) =
  build_map str_upper second ∪ build_map str_upper first.
Proof.
  apply map_eq. intros s.
  rewrite lookup_union, !build_map_lookup, filter_app, last_app.
  by destruct (last (filter _ second)), (last (filter _ first)).
Qed.

Lemma warm_run_sends_no_listing_request (w : World R)
    (coin_map : gmap string string) (text : string) (clicked : bool) :
  ReqCoinsList ∉ trace (script str_upper w (Some coin_map) text clicked).
Proof.
  rewrite script_run. cbn [st_cache_data trace outcome fst snd app].
  unfold_M. cbn [fst snd app]. intros Hin.
  repeat (apply elem_of_cons in Hin as [Hin|Hin]; [discriminate|]).
  destruct clicked; [|by apply elem_of_nil in Hin].
  by apply (no_listing_request_in_prediction w coin_map (str_upper text)).
Qed.

Lemma session_warm (coin_map : gmap string string)
    (runs : list (World R * string * bool)) :
  session str_upper (Some coin_map) runs =
  (λ r, script str_upper r.1.1 (Some coin_map) r.1.2 r.2) <$> runs.
Proof.
  induction runs as [|[[w text] clicked] runs IH]; [done|].
  cbn [session fmap list_fmap]. f_equal. apply IH.
Qed.

(** X12.  In one process, once a run has fetched the listing, every later
    run resolves symbols against the map built from that first listing,
    whatever the listing endpoint would answer by then, and sends no
    listing request. *)
Theorem one_listing_per_process (w : World R) (text : string) (clicked : bool)
    (data : list Coin) (later : list (World R * string * bool)) :
  coins_list w = inr data →
  session str_upper None ((w, text, clicked) :: later) =
    script str_upper w None text clicked ::
    ((λ r, script str_upper r.1.1 (Some (build_map str_upper data)) r.1.2 r.2)
       <$> later) ∧
  ReqCoinsList ∈ trace (script str_upper w None text clicked) ∧
  Forall (λ run, ReqCoinsList ∉ trace run)
    (session str_upper (Some (build_map str_upper data)) later).
Proof.
  intros Hw.
  assert (script_cache str_upper w None = Some (build_map str_upper data)) as Hcache.
  { unfold script_cache, cache_after. by rewrite (load_coin_mapping_ok _ _ _ Hw). }
  split; [|split].
  - cbn [session]. by rewrite Hcache, session_warm.
  - rewrite script_run. cbn [st_cache_data].
    rewrite (load_coin_mapping_ok _ _ _ Hw). cbn [trace fst app].
    do 4 apply list_elem_of_further. apply list_elem_of_here.
  - rewrite session_warm. apply Forall_fmap, Forall_true.
    intros [[w' text'] clicked']. cbn [fst snd].
    exact (warm_run_sends_no_listing_request w' (build_map str_upper data) text' clicked').
Qed.

(** X13.  A run that was not triggered by the button contacts no market
    data source and shows no table, download, warning or error: apart from
    the page head and the button it does only the cached listing call, and
    it ends normally unless that call raised. *)
Theorem idle_run_only_loads_the_listing (w : World R)
    (cache : option (gmap string string)) (text : string) :
  let run := script str_upper w cache text false in
  requests (trace run) =
    trace (st_cache_data cache (load_coin_mapping str_upper w)) ∧
  dataframes (trace run) = [] ∧ downloads (trace run) = [] ∧
  warnings (trace run) = [] ∧ errors (trace run) = [] ∧
  (outcome run = inr tt ∨
   ∃ msg, cache = None ∧ coins_list w = inl msg ∧
          outcome run = inl (Exception msg)).
Proof.
  intros run. subst run. rewrite script_run.
  destruct cache as [m|]; cbn [st_cache_data].
  { unfold_M. cbn. repeat split; try done. by left. }
  unfold load_coin_mapping. unfold_M.
  destruct (coins_list w) as [msg|data]; cbn.
  - repeat split; try done. right. by exists msg.
  - repeat split; try done. by left.
Qed.

(** X16.  When the listing request raises on a run that finds the cache
    empty, the run ends right there, clicked or not: no Yahoo request is
    sent, so not even a symbol the primary source knows gets a prediction,
    nothing is shown past the input box, no error message comes from the
    handler, and since nothing is cached the next run of the process starts
    from an empty cache again. *)
Theorem listing_failure_blocks_the_run (w : World R) (text msg : string)
    (clicked : bool) (later : list (World R * string * bool)) :
  coins_list w = inl msg →
  let run := script str_upper w None text clicked in
  outcome run = inl (Exception msg) ∧
  requests (trace run) = [ ReqCoinsList ] ∧
  dataframes (trace run) = [] ∧ downloads (trace run) = [] ∧
  errors (trace run) = [] ∧
  session str_upper None ((w, text, clicked) :: later) =
    run :: session str_upper None later.
Proof.
  intros Hw run. subst run.
  assert (load_coin_mapping str_upper w = ([ReqCoinsList], inl (Exception msg)))
    as Hload.
  { unfold load_coin_mapping. unfold_M. by rewrite Hw. }
  rewrite script_run. cbn [st_cache_data]. rewrite Hload.
  cbn [trace outcome fst snd]. repeat split; try done.
  cbn [session]. unfold script_cache, cache_after. rewrite Hload.
  cbn [outcome snd]. by rewrite script_run, Hload.
Qed.

End MapAndCache.

Section PrimarySeries.

Context {R : Type} `{PyFloat R}.

(** X14.  Stripping the zone keeps the frame's length and order and turns
    each candle into its local wall time and its close; when all candles
    carry the same offset, strictly increasing instants give strictly
    increasing timestamps. *)
Theorem normalize_keeps_order (candles : list (Candle R)) (offset : Z) :
  Forall (λ c, utcoffset_ns (Datetime c) = offset) candles →
  StronglySorted Z.lt ((λ c, utc_ns (Datetime c)) <$> candles) →
  length (normalize candles) = length candles ∧
  (∀ i c, candles !! i = Some c →
          normalize candles !! i =
          Some {| ds := utc_ns (Datetime c) + offset; y := Close c |}) ∧
  StronglySorted Z.lt (ds <$> normalize candles).
Proof.
  intros Hoff Hsorted. unfold normalize.
  change (map ?f candles) with (f <$> candles).
  split; [apply length_fmap|]. split.
  - intros i c Hi. rewrite list_lookup_fmap, Hi. cbn. unfold tz_localize_none.
    rewrite Forall_forall in Hoff. rewrite (Hoff c); [done|].
    by eapply list_elem_of_lookup_2.
  - rewrite <-list_fmap_compose.
    apply (sorted_fmap_increasing (λ c, utc_ns (Datetime c))); [|done].
    intros a b Ha Hb. cbn. unfold tz_localize_none.
    rewrite Forall_forall in Hoff. rewrite (Hoff a Ha), (Hoff b Hb). lia.
Qed.

End PrimarySeries.

(** ** The predicted time *)

Section PredictedTime.

Lemma div_truncated (x m k : Z) :
  0 < m → 0 < k → (x - x mod m) / (k * m) = x / (k * m).
Proof.
  intros Hm Hk. rewrite (Z.mod_eq x m) by lia.
  replace (x - (x - m * (x / m))) with (m * (x / m)) by lia.
  rewrite (Z.mul_comm k m), Z.div_mul_cancel_l by lia.
  by rewrite Z.div_div by lia.
Qed.

Lemma mod_truncated (x m k : Z) :
  0 < m → 0 < k →
  (x - x mod m) mod (k * m) = x mod (k * m) - (x mod (k * m)) mod m.
Proof.
  intros Hm Hk.
  rewrite (Z.mod_eq (x - x mod m) (k * m)), div_truncated by lia.
  rewrite (Z.mod_mod_divide x (k * m) m) by (by exists k).
  rewrite (Z.mod_eq x (k * m)) by lia. lia.
Qed.

Lemma strftime_truncated (t : Timestamp) :
  strftime_ymd_hm (t - t mod ns_per_minute) = strftime_ymd_hm t.
Proof.
  unfold strftime_ymd_hm.
  assert (0 < ns_per_minute) as Hm by done.
  replace ns_per_day with (1440 * ns_per_minute) by reflexivity.
  replace ns_per_hour with (60 * ns_per_minute) by reflexivity.
  rewrite div_truncated, mod_truncated by lia.
  set (tod := t mod (1440 * ns_per_minute)).
  rewrite div_truncated, mod_truncated by lia.
  set (toh := tod mod (60 * ns_per_minute)).
  replace ((toh - toh mod ns_per_minute) / ns_per_minute) with (toh / ns_per_minute);
    [done|].
  pose proof (div_truncated toh ns_per_minute 1 Hm) as Hone.
  rewrite !Z.mul_1_l in Hone. by rewrite Hone.
Qed.

(** X15.  The predicted time is printed to the minute: two timestamps in
    the same minute give the same text (seconds and below are dropped, not
    rounded). *)
Theorem predicted_time_is_to_the_minute (t u : Timestamp) :
  t / ns_per_minute = u / ns_per_minute →
  strftime_ymd_hm t = strftime_ymd_hm u.
Proof.
  intros Hsame.
  assert (∀ x, x - x mod ns_per_minute = ns_per_minute * (x / ns_per_minute))
    as Htruncate.
  { intros x. rewrite (Z.mod_eq x ns_per_minute) by done. lia. }
  rewrite <-(strftime_truncated t), <-(strftime_truncated u).
  by rewrite !Htruncate, Hsame.
Qed.

End PredictedTime.

(** ** The script on the sample data *)

Module Checks.

Import Binary64.

(** The order of the two operations of line 76 matters in binary64: at a
    current price of 0.04 and a forecast of 0.04011 the change is 0.00011
    and the code's [(change / current_price) * 100] rounds to 0.27, while
    [100 * change / current_price] rounds to 0.28. *)
Lemma percent_order_matters :
  let hr := horizon_values 1 (Sample.forecast_row 1 (decimal 4011 5)) (decimal 4 2) in
  change hr = decimal 11 5 ∧
  pct_change hr = decimal 27 2 ∧
  round (fdiv (fmul (of_int 100) (change hr)) (h_current_price hr)) 2 =
    decimal 28 2 ∧
  pct_change hr ≠
    round (fdiv (fmul (of_int 100) (change hr)) (h_current_price hr)) 2.
Proof.
  vm_compute. repeat split; try reflexivity.
  intros Hsame.
  apply (f_equal (λ x, PrimFloat.eqb x (decimal 27 2))) in Hsame.
  vm_compute in Hsame. discriminate.
Qed.

(** The two examples of the specification, section 8. *)
Example spec_example_uptrend :
  let hr := horizon_values 1 (Sample.forecast_row 1 (of_Z 105)) (of_Z 100) in
  change hr = of_Z 5 ∧ pct_change hr = of_Z 5 ∧
  fstr (pct_change hr) = "5.0" ∧ trend hr = uptrend_label.
Proof. vm_compute. done. Qed.

Example spec_example_flat :
  let hr := horizon_values 1 (Sample.forecast_row 1 (of_Z 100)) (of_Z 100) in
  change hr = of_Z 0 ∧ pct_change hr = of_Z 0 ∧
  fstr (pct_change hr) = "0.0" ∧ trend hr = downtrend_label.
Proof. vm_compute. done. Qed.

Example spec_example_falling :
  let hr := horizon_values 1 (Sample.forecast_row 1 (decimal 9975 2)) (of_Z 100) in
  change hr = decimal (-25) 2 ∧ pct_change hr = decimal (-25) 2 ∧
  fstr (pct_change hr) = "-0.25" ∧ trend hr = downtrend_label.
Proof. vm_compute. done. Qed.

(** The bare words are not the labels: a rising row is labelled
    ["🔺 Uptrend"], which is not ["Uptrend"], and a flat one
    ["🔻 Downtrend"], which is not ["Downtrend"]. *)
Lemma trend_label_is_not_bare_word :
  let up := horizon_values 1 (Sample.forecast_row 1 (of_Z 105)) (of_Z 100) in
  let flat := horizon_values 1 (Sample.forecast_row 1 (of_Z 100)) (of_Z 100) in
  (gt (pct_change up) (of_int 0) = true ∧ trend up ≠ "Uptrend") ∧
  (gt (pct_change flat) (of_int 0) = false ∧ trend flat ≠ "Downtrend").
Proof. vm_compute. repeat split; discriminate. Qed.

(** A second run of the page in the same process sends no listing
    request: the map is served from the cache. *)
Lemma second_run_sends_no_listing_request :
  ∃ first second,
    session ascii_upper None
      [ (Sample.world, "btc", false); (Sample.world, "btc", false) ] =
      [ first; second ] ∧
    ReqCoinsList ∈ trace first ∧
    requests (trace second) = [] ∧
    ReqCoinsList ∉ trace second.
Proof.
  eexists _, _. split; [reflexivity|]. split; [|split].
  - vm_compute. set_solver.
  - reflexivity.
  - intros Hin. vm_compute in Hin.
    repeat (apply elem_of_cons in Hin as [Hin|Hin]; [discriminate|]).
    by apply elem_of_nil in Hin.
Qed.

(** *** The theorems at the sample data *)

Lemma symbol_map_last_wins_witness :
  coins_list Sample.world = inr Sample.listing ∧
  ∃ coin_map : gmap string string,
    outcome (load_coin_mapping ascii_upper Sample.world) = inr coin_map ∧
    (∀ s, coin_map !! s =
          coin_id <$> last (filter (λ c, ascii_upper (coin_symbol c) = s)
                              Sample.listing)) ∧
    (∀ before c after,
        Sample.listing = before ++ c :: after →
        Forall (λ c', ascii_upper (coin_symbol c') ≠ ascii_upper (coin_symbol c))
          after →
        coin_map !! ascii_upper (coin_symbol c) = Some (coin_id c)) ∧
    (∀ s, Forall (λ c, ascii_upper (coin_symbol c) ≠ s) Sample.listing →
          coin_map !! s = None).
Proof.
  split; [reflexivity|].
  apply (symbol_map_last_wins ascii_upper Sample.world Sample.listing).
  reflexivity.
Defined.

Lemma forecast_future_24_witness :
  (2 ≤ length (normalize Sample.btc_candles))%nat ∧
  StronglySorted Z.lt (ds <$> normalize Sample.btc_candles) ∧
  ∃ now future_data,
    last (ds <$> normalize Sample.btc_candles) = Some now ∧
    forecast_future Sample.world (normalize Sample.btc_candles) =
      ([], inr future_data) ∧
    length future_data = 24%nat ∧
    (∀ i r, future_data !! i = Some r →
            f_ds r = now + (Z.of_nat i + 1) * ns_per_hour) ∧
    Forall (λ r, now < f_ds r) future_data ∧
    StronglySorted Z.lt (f_ds <$> future_data).
Proof.
  assert (2 ≤ length (normalize Sample.btc_candles))%nat as Hlen
    by (vm_compute; lia).
  assert (StronglySorted Z.lt (ds <$> normalize Sample.btc_candles)) as Hsorted
    by (vm_compute; repeat constructor).
  split; [exact Hlen|]. split; [exact Hsorted|].
  apply (forecast_future_24 Sample.world (normalize Sample.btc_candles));
    [exact Hlen | exact Hsorted].
Defined.

Lemma horizons_and_offsets_witness :
  length (Sample.future 24) = 24%nat ∧
  time_slots = [1; 2; 4; 6; 8; 10; 12; 14; 16; 18; 20; 22; 24] ∧
  StronglySorted Z.lt time_slots ∧
  ∃ tables,
    outcome (horizon_loop time_slots (Sample.future 24) (of_Z 100) []) = inr tables ∧
    dataframes (trace (horizon_loop time_slots (Sample.future 24) (of_Z 100) [])) =
      tables ∧
    Forall2 (λ h t, ∃ row, Sample.future 24 !! Z.to_nat (h - 1) = Some row ∧
                           t = table_of (horizon_values h row (of_Z 100)))
      time_slots tables.
Proof.
  split; [reflexivity|].
  apply (horizons_and_offsets (Sample.future 24) (of_Z 100)). reflexivity.
Defined.

Lemma short_future_skips_horizons_witness :
  (length (Sample.future 10) < 24)%nat ∧
  let n := Z.of_nat (length (Sample.future 10)) in
  let run := horizon_loop time_slots (Sample.future 10) (of_Z 100) [] in
  ∃ tables,
    outcome run = inr tables ∧
    Forall2 (λ h t, ∃ row, Sample.future 10 !! Z.to_nat (h - 1) = Some row ∧
                           t = table_of (horizon_values h row (of_Z 100)))
      (filter (λ h, h ≤ n) time_slots) tables ∧
    dataframes (trace run) = tables ∧
    warnings (trace run) = not_enough_data <$> filter (λ h, n < h) time_slots ∧
    not_enough_data 24 ∈ warnings (trace run) ∧
    trace run = time_slots ≫= horizon_events (Sample.future 10) (of_Z 100).
Proof.
  assert (length (Sample.future 10) < 24)%nat as Hshort by (vm_compute; lia).
  split; [exact Hshort|].
  apply (short_future_skips_horizons (Sample.future 10) (of_Z 100)). exact Hshort.
Defined.

(** With ten future rows the horizons 1 to 10 are shown and 12 to 24 are
    skipped, as in the specification. *)
Example ten_rows_shown_and_skipped :
  let run := horizon_loop time_slots (Sample.future 10) (of_Z 100) [] in
  omap (λ d, head (rows d) ≫= head) (dataframes (trace run)) =
    CInt <$> [1; 2; 4; 6; 8; 10] ∧
  warnings (trace run) =
    not_enough_data <$> [12; 14; 16; 18; 20; 22; 24].
Proof. vm_compute. done. Qed.

Lemma unresolvable_symbol_stops_witness :
  yf_download Sample.world ("XYZ" +:+ "-USD") = inr [] ∧
  build_map ascii_upper Sample.listing !! "XYZ" = None ∧
  on_predict Sample.world (build_map ascii_upper Sample.listing) "XYZ" =
    ([ StInfo "📥 Fetching market data..."; ReqYahoo ("XYZ" +:+ "-USD");
       StWarning "⚠ Yahoo Finance failed. Trying CoinGecko...";
       StError "❌ Coin not found on CoinGecko." ],
     inl StopException) ∧
  dataframes (trace (on_predict Sample.world
                       (build_map ascii_upper Sample.listing) "XYZ")) = [] ∧
  downloads (trace (on_predict Sample.world
                      (build_map ascii_upper Sample.listing) "XYZ")) = [] ∧
  (∀ (str_upper : string → string) (cache : option (gmap string string))
     (text : string),
      str_upper text = "XYZ" →
      outcome (st_cache_data cache (load_coin_mapping str_upper Sample.world)) =
        inr (build_map ascii_upper Sample.listing) →
      let run := script str_upper Sample.world cache text true in
      outcome run = inl StopException ∧
      errors (trace run) = [ "❌ Coin not found on CoinGecko." ] ∧
      dataframes (trace run) = [] ∧
      downloads (trace run) = []).
Proof.
  assert (yf_download Sample.world ("XYZ" +:+ "-USD") = inr []) as Hy
    by reflexivity.
  assert (build_map ascii_upper Sample.listing !! "XYZ" = None) as Hm
    by (vm_compute; reflexivity).
  split; [exact Hy|]. split; [exact Hm|].
  apply (unresolvable_symbol_stops Sample.world
           (build_map ascii_upper Sample.listing) "XYZ"); [exact Hy | exact Hm].
Defined.

Lemma primary_source_first_witness :
  yf_download Sample.world ("BTC" +:+ "-USD") =
    inr (Sample.candle 0 (of_Z 99) :: [Sample.candle 1 (of_Z 100)]) ∧
  fetch_market_data Sample.world ∅ "BTC" =
    ([ StInfo "📥 Fetching market data..."; ReqYahoo ("BTC" +:+ "-USD");
       StSuccess "✅ Data loaded from Yahoo Finance." ],
     inr (normalize (Sample.candle 0 (of_Z 99) :: [Sample.candle 1 (of_Z 100)]))) ∧
  requests (trace (on_predict Sample.world ∅ "BTC")) =
    [ ReqYahoo ("BTC" +:+ "-USD") ].
Proof.
  assert (yf_download Sample.world ("BTC" +:+ "-USD") =
          inr (Sample.candle 0 (of_Z 99) :: [Sample.candle 1 (of_Z 100)])) as Hy
    by reflexivity.
  split; [exact Hy|].
  destruct (proj1 (primary_source_first Sample.world ∅ "BTC") _ _ Hy)
    as (Hfetch & _ & _ & Hreq).
  split; [exact Hfetch | exact Hreq].
Defined.

Lemma listing_request_when_cache_empty_witness :
  coins_list Sample.world = inr Sample.listing ∧
  script ascii_upper Sample.world None "btc" false =
    ([ StSetPageConfig;
       StTitle "🧠 Altcoin AI Price Predictor (1–24 Hour Forecasts)";
       StMarkdown "🔮 Enter altcoin symbol to get hourly price forecasts in beautiful tables.";
       StTextInput "💡 Enter Altcoin Symbol (e.g., BTC, PEPE)";
       ReqCoinsList;
       StButton "🔍 Predict Price Movement" ],
     inr tt) ∧
  script_cache ascii_upper Sample.world None =
    Some (build_map ascii_upper Sample.listing).
Proof.
  assert (coins_list Sample.world = inr Sample.listing) as Hw by reflexivity.
  split; [exact Hw|].
  exact (proj1 (proj2 (listing_request_when_cache_empty ascii_upper
                         Sample.world "btc" false)) Sample.listing Hw).
Defined.

End Checks.

(** ** Further theorems at the sample data *)

Module MoreChecks.

Import Binary64.

Lemma fallback_series_witness :
  yf_download (Sample.fallback_world (inr Sample.doge_prices)) ("DOGE" +:+ "-USD")
    = inr [] ∧
  Sample.doge_map !! "DOGE" = Some "dogecoin" ∧
  Forall (λ p, - int64_max ≤ stamp_ms p.1 * 1000000 ≤ int64_max)
    Sample.doge_prices ∧
  ∃ df,
    outcome (fetch_market_data (Sample.fallback_world (inr Sample.doge_prices))
               Sample.doge_map "DOGE") = inr df ∧
    length df = length Sample.doge_prices ∧
    (∀ i ms price, Sample.doge_prices !! i = Some (ms, price) →
                   df !! i = Some {| ds := stamp_ms ms * 1000000; y := price |}) ∧
    (StronglySorted Z.lt ((λ p, stamp_ms p.1) <$> Sample.doge_prices) →
     StronglySorted Z.lt (ds <$> df)).
Proof.
  assert (Sample.doge_map !! "DOGE" = Some "dogecoin") as Hm
    by (vm_compute; reflexivity).
  assert (Forall (λ p, - int64_max ≤ stamp_ms p.1 * 1000000 ≤ int64_max)
            Sample.doge_prices) as Hin
    by (repeat constructor; vm_compute; discriminate).
  split; [reflexivity|]. split; [exact Hm|]. split; [exact Hin|].
  apply (proj1 (fallback_series (Sample.fallback_world (inr Sample.doge_prices))
                  Sample.doge_map "DOGE" "dogecoin" Sample.doge_prices
                  eq_refl Hm eq_refl)).
  exact Hin.
Defined.

(** A stamp past the timestamp bounds: the conversion raises and the
    prediction ends with the generic error, as the theorem says. *)
Example far_stamp_is_a_generic_error :
  on_predict (Sample.fallback_world (inr [ (Sample.far_stamp, of_Z 1) ]))
    Sample.doge_map "DOGE" =
  ([ StInfo "📥 Fetching market data..."; ReqYahoo "DOGE-USD";
     StWarning "⚠ Yahoo Finance failed. Trying CoinGecko...";
     ReqMarketChart "dogecoin" 1692234000 1700010000;
     StError "❌ Error occurred: Out of bounds nanosecond timestamp" ],
   inr tt).
Proof. vm_compute. reflexivity. Qed.

(** Both sources answer with nothing: the generic error, no table. *)
Lemma short_series_is_a_generic_error_witness :
  outcome (fetch_market_data (Sample.fallback_world (inr [])) Sample.doge_map "DOGE")
    = inr [] ∧
  (length (@nil (Point float)) < 2)%nat ∧
  ∃ msg,
    on_predict (Sample.fallback_world (inr [])) Sample.doge_map "DOGE" =
    (trace (fetch_market_data (Sample.fallback_world (inr [])) Sample.doge_map "DOGE")
     ++ [ StInfo "🔮 Predicting future prices...";
          StError ("❌ Error occurred: " +:+ msg) ],
     inr tt).
Proof.
  assert (outcome (fetch_market_data (Sample.fallback_world (inr []))
                     Sample.doge_map "DOGE") = inr []) as Hfetch
    by (vm_compute; reflexivity).
  assert (length (@nil (Point float)) < 2)%nat as Hlen by (simpl; lia).
  split; [exact Hfetch|]. split; [exact Hlen|].
  apply (short_series_is_a_generic_error (Sample.fallback_world (inr []))
           Sample.doge_map "DOGE" []); [exact Hfetch | exact Hlen].
Defined.

Lemma failed_request_is_reported_witness :
  yf_download Sample.offline ("BTC" +:+ "-USD") = inl "connection refused" ∧
  on_predict Sample.offline ∅ "BTC" =
    ([ StInfo "📥 Fetching market data..."; ReqYahoo ("BTC" +:+ "-USD");
       StError ("❌ Error occurred: " +:+ "connection refused") ],
     inr tt).
Proof.
  split; [reflexivity|].
  apply (proj1 (failed_request_is_reported Sample.offline ∅ "BTC")
           "connection refused").
  reflexivity.
Defined.

Lemma valid_series_shows_every_horizon_witness :
  outcome (fetch_market_data Sample.world ∅ "BTC") =
    inr (normalize Sample.btc_candles) ∧
  (2 ≤ length (normalize Sample.btc_candles))%nat ∧
  StronglySorted Z.lt (ds <$> normalize Sample.btc_candles) ∧
  Forall (λ p, finite_price (y p)) (normalize Sample.btc_candles) ∧
  Forall (λ p, - int64_max ≤ ds p ∧ ds p + 24 * ns_per_hour ≤ int64_max)
    (normalize Sample.btc_candles) ∧
  length (dataframes (trace (on_predict Sample.world ∅ "BTC"))) = 13%nat ∧
  errors (trace (on_predict Sample.world ∅ "BTC")) = [].
Proof.
  assert (Forall (λ p, finite_price (y p)) (normalize Sample.btc_candles))
    as Hfinite.
  { repeat constructor; exists (of_Z 0), (of_Z 1000); split; reflexivity. }
  assert (Forall (λ p, - int64_max ≤ ds p ∧ ds p + 24 * ns_per_hour ≤ int64_max)
            (normalize Sample.btc_candles)) as Hbounds
    by (repeat constructor; vm_compute; discriminate).
  assert (outcome (fetch_market_data Sample.world ∅ "BTC") =
          inr (normalize Sample.btc_candles)) as Hfetch by reflexivity.
  assert (2 ≤ length (normalize Sample.btc_candles))%nat as Hlen
    by (vm_compute; lia).
  assert (StronglySorted Z.lt (ds <$> normalize Sample.btc_candles)) as Hsorted
    by (vm_compute; repeat constructor).
  split; [exact Hfetch|]. split; [exact Hlen|]. split; [exact Hsorted|].
  split; [exact Hfinite|]. split; [exact Hbounds|].
  destruct (valid_series_shows_every_horizon Sample.world ∅ "BTC"
              (normalize Sample.btc_candles) Hfetch Hlen Hsorted Hfinite Hbounds)
    as (now & last_y & _ & _ & _ & _ & Hcount & Herrors).
  split; [exact Hcount | exact Herrors].
Defined.

Lemma one_listing_per_process_witness :
  coins_list Sample.world = inr Sample.listing ∧
  session ascii_upper None
    [ (Sample.world, "btc", false); (Sample.offline, "pepe", true) ] =
    [ script ascii_upper Sample.world None "btc" false;
      script ascii_upper Sample.offline
        (Some (build_map ascii_upper Sample.listing)) "pepe" true ] ∧
  Forall (λ run, ReqCoinsList ∉ trace run)
    (session ascii_upper (Some (build_map ascii_upper Sample.listing))
       [ (Sample.offline, "pepe", true) ]).
Proof.
  assert (coins_list Sample.world = inr Sample.listing) as Hw by reflexivity.
  split; [exact Hw|].
  destruct (one_listing_per_process ascii_upper Sample.world "btc" false
              Sample.listing [ (Sample.offline, "pepe", true) ] Hw)
    as (Hsession & _ & Hquiet).
  split; [exact Hsession | exact Hquiet].
Defined.

Lemma listing_failure_blocks_the_run_witness :
  coins_list Sample.offline = inl "connection refused" ∧
  outcome (script ascii_upper Sample.offline None "btc" true) =
    inl (Exception "connection refused") ∧
  requests (trace (script ascii_upper Sample.offline None "btc" true)) =
    [ ReqCoinsList ].
Proof.
  assert (coins_list Sample.offline = inl "connection refused") as Hw
    by reflexivity.
  split; [exact Hw|].
  destruct (listing_failure_blocks_the_run ascii_upper Sample.offline "btc"
              "connection refused" true [] Hw) as (Hout & Hreq & _).
  split; [exact Hout | exact Hreq].
Defined.

Lemma normalize_keeps_order_witness :
  Forall (λ c, utcoffset_ns (Datetime c) = 0) Sample.btc_candles ∧
  StronglySorted Z.lt ((λ c, utc_ns (Datetime c)) <$> Sample.btc_candles) ∧
  length (normalize Sample.btc_candles) = length Sample.btc_candles ∧
  (∀ i c, Sample.btc_candles !! i = Some c →
          normalize Sample.btc_candles !! i =
          Some {| ds := utc_ns (Datetime c) + 0; y := Close c |}) ∧
  StronglySorted Z.lt (ds <$> normalize Sample.btc_candles).
Proof.
  assert (Forall (λ c, utcoffset_ns (Datetime c) = 0) Sample.btc_candles) as Hoff
    by (repeat constructor).
  assert (StronglySorted Z.lt ((λ c, utc_ns (Datetime c)) <$> Sample.btc_candles))
    as Hsorted by (vm_compute; repeat constructor).
  split; [exact Hoff|]. split; [exact Hsorted|].
  apply (normalize_keeps_order Sample.btc_candles 0); [exact Hoff | exact Hsorted].
Defined.

Lemma predicted_time_is_to_the_minute_witness :
  (Sample.t0 + 1000000000) / ns_per_minute =
    (Sample.t0 + 59000000000) / ns_per_minute ∧
  strftime_ymd_hm (Sample.t0 + 1000000000) =
    strftime_ymd_hm (Sample.t0 + 59000000000).
Proof.
  split; [reflexivity|].
  apply (predicted_time_is_to_the_minute (Sample.t0 + 1000000000)
           (Sample.t0 + 59000000000)).
  reflexivity.
Defined.

(** A zone offset that changes between candles can undo the order: two
    candles an hour apart whose offset drops by an hour land on the same
    wall time. *)
Example offset_change_collapses_wall_times :
  let before := {| utc_ns := Sample.t0; utcoffset_ns := ns_per_hour |} in
  let after := {| utc_ns := Sample.t0 + ns_per_hour; utcoffset_ns := 0 |} in
  utc_ns before < utc_ns after ∧ tz_localize_none before = tz_localize_none after.
Proof. vm_compute. done. Qed.

End MoreChecks.
